(** * notion_requests: the pagination generator and the endpoint layer

    A shallow embedding of [src/notion_requests/client.py].

    - JSON data is an inductive type whose objects are finite maps.
    - Exceptions are values of [exn]; fallible code returns [result].
    - A Python generator is a frame (its locals and a program point)
      together with a [next] function that resumes it once.
    - The network is a server function and the log of requests sent. *)

From Stdlib Require Import ZArith.
From stdpp Require Import base option strings gmap list.


Set Warnings "-register-all".

(** ** JSON values, as [Response.json()] decodes them *)

(** Numbers are integers here; the program reads no number. *)
Inductive json : Type :=
| JNull
| JBool (b : bool)
| JNum (n : Z)
| JStr (s : string)
| JList (l : list json)
| JDict (m : gmap string json).

(** A Python [dict] with string keys. *)
Abbreviation dict := (gmap string json).

(** ** Exceptions and results *)

(** What the transport answers with. [body] is [None] when the body is
    not a JSON document. *)
Record response := Response { status_code : Z; body : option json }.

Inductive exn : Type :=
| KeyError (key : string)
| TypeError (msg : string)
| HTTPError (r : response)
| RequestException (msg : string)
| JSONDecodeError.

Inductive result (A : Type) : Type :=
| Ok (a : A)
| Raise (e : exn).
Arguments Ok {A} a.
Arguments Raise {A} e.

(** What one [next(gen)] gives the consumer. *)
Inductive step (V : Type) : Type :=
| Yield (v : V)
| StopIteration
| Throw (e : exn).
Arguments Yield {V} v.
Arguments StopIteration {V}.
Arguments Throw {V} e.

(** [obj[key]] for a string key. Only a dict has string keys; a list or a
    string takes integer indices and the scalars are not subscriptable. *)
Definition subscript (obj : json) (key : string) : result json :=
  match obj with
  | JDict m =>
      match m !! key with
      | Some v => Ok v
      | None => Raise (KeyError key)
      end
  | JList _ => Raise (TypeError "list indices must be integers or slices, not str")
  | JStr _ => Raise (TypeError "string indices must be integers")
  | _ => Raise (TypeError "object is not subscriptable")
  end.

(** Truth value of an object in an [if]. *)
Definition truthy (v : json) : bool :=
  match v with
  | JNull => false
  | JBool b => b
  | JNum n => negb (n =? 0)%Z
  | JStr s => negb (String.eqb s "")
  | JList l => negb (length l =? 0)%nat
  | JDict m => negb (size m =? 0)%nat
  end.

(** ** Client.paginate *)

(** Program points of the generator body:
<<
        yield data                      # AtEntry -> AtYield1
        if data['has_more']:
            if kwargs is not None: ...
            yield fn( *args, **kwargs)  # AtYield1 -> AtYield2
                                        # AtYield2 -> Returned
>> *)
Inductive pc := AtEntry | AtYield1 | AtYield2 | Returned.

(** The frame of one [paginate] generator. [f_kwargs] is the local
    [kwargs]; [None] stands for Python's [None]. *)
Record frame (A : Type) := Frame {
  f_data : json;
  f_args : A;
  f_kwargs : option dict;
  f_pc : pc
}.
Arguments Frame {A} _ _ _ _.
Arguments f_data {A} _.
Arguments f_args {A} _.
Arguments f_kwargs {A} _.
Arguments f_pc {A} _.

Definition at_pc {A} (p : pc) (g : frame A) : frame A :=
  Frame (f_data g) (f_args g) (f_kwargs g) p.

Definition with_kwargs {A} (kw : dict) (g : frame A) : frame A :=
  Frame (f_data g) (f_args g) (Some kw) (f_pc g).

(** The two arms of [if kwargs is not None]. *)
Definition inject_cursor (kwargs : option dict) (cursor : json) : dict :=
  match kwargs with
  | Some kw => <["start_cursor" := cursor]> kw
  | None => {["start_cursor" := cursor]}
  end.

Section Paginate.
(** [A]: the positional arguments [*args], passed through untouched.
    [V]: what the generator yields.  [W]: the state [fn] works on. *)
Context {A V W : Type}.
(** How a decoded page is seen as a yielded object. *)
Variable of_json : json → V.
(** The callable [fn], run as [fn( *args, **kwargs)]. *)
Variable fn : A → dict → W → result V * W.

(** Calling [paginate(fn, data, *args, **kwargs)] runs nothing: it
    makes the generator object. [**kwargs] collects a dict. *)
Definition paginate (data : json) (args : A) (kwargs : dict) : frame A :=
  Frame data args (Some kwargs) AtEntry.

(** One [next()] on the generator. *)
Definition next (g : frame A) (w : W) : step V * frame A * W :=
  match f_pc g with
  | AtEntry => (Yield (of_json (f_data g)), at_pc AtYield1 g, w)
  | AtYield1 =>
      match subscript (f_data g) "has_more" with
      | Raise e => (Throw e, at_pc Returned g, w)
      | Ok has_more =>
          if truthy has_more then
            match subscript (f_data g) "next_cursor" with
            | Raise e => (Throw e, at_pc Returned g, w)
            | Ok cursor =>
                let kw := inject_cursor (f_kwargs g) cursor in
                match fn (f_args g) kw w with
                | (Ok v, w') => (Yield v, at_pc AtYield2 (with_kwargs kw g), w')
                | (Raise e, w') => (Throw e, at_pc Returned (with_kwargs kw g), w')
                end
            end
          else (StopIteration, at_pc Returned g, w)
      end
  | AtYield2 => (StopIteration, at_pc Returned g, w)
  | Returned => (StopIteration, g, w)
  end.
End Paginate.

(** ** Consuming a generator *)

(** How a [for] loop over a generator ends. [Pending] is the loop that
    has not ended within the pulls it was given. *)
Inductive ending := Exhausted | Raised (e : exn) | Pending.

Section Consume.
Context {G V W : Type}.
Variable resume : G → W → step V * G * W.

(** [list(gen)], pulling at most [fuel] times: the elements yielded,
    how the loop ended, the generator and the state left behind. The
    consumer leaves the yielded objects as they are. *)
Fixpoint collect (fuel : nat) (g : G) (w : W) : list V * ending * G * W :=
  match fuel with
  | 0 => ([], Pending, g, w)
  | S fuel' =>
      match resume g w with
      | (Yield v, g', w') =>
          let '(vs, e, g'', w'') := collect fuel' g' w' in
          (v :: vs, e, g'', w'')
      | (StopIteration, g', w') => ([], Exhausted, g', w')
      | (Throw e, g', w') => ([], Raised e, g', w')
      end
  end.
End Consume.

(** The parts of what [collect] returns. *)
Definition yielded {G V W} (run : list V * ending * G * W) : list V := run.1.1.1.
Definition ended {G V W} (run : list V * ending * G * W) : ending := run.1.1.2.
Definition generator_after {G V W} (run : list V * ending * G * W) : G := run.1.2.
Definition state_after {G V W} (run : list V * ending * G * W) : W := run.2.

(** A test spy around a callable: behaves as [fn] and appends the
    arguments of every invocation to a call list. *)
Definition spy {A V W} (fn : A → dict → W → result V * W)
    (args : A) (kwargs : dict) (s : W * list (A * dict))
    : result V * (W * list (A * dict)) :=
  let '(r, w') := fn args kwargs s.1 in
  (r, (w', s.2 ++ [(args, kwargs)])).

(** ** The transport *)

(** One call of [requests.request(method, url, headers=..., **kwargs)]. *)
Record http_request := Request {
  req_method : string;
  req_url : string;
  req_headers : gmap string string;
  req_kwargs : dict
}.

(** [requests.request] either raises or returns a response. *)
Inductive outcome := Failed (e : exn) | Answered (r : response).

(** The requests sent so far, oldest first. *)
Abbreviation log := (list http_request).

(** The transport and the remote side: what becomes of a request, given
    those before it. *)
Abbreviation server := (log → http_request → outcome).

(** Code that talks to the network: reads the server, extends the log,
    and returns or raises. *)
Definition M (A : Type) : Type := server → log → result A * log.

#[export] Instance M_ret : MRet M := λ A a _ w, (Ok a, w).

#[export] Instance M_bind : MBind M := λ A B k m srv w,
  match m srv w with
  | (Ok a, w') => k a srv w'
  | (Raise e, w') => (Raise e, w')
  end.

(** A computation that only returns or raises. *)
Definition lift {A} (r : result A) : M A := λ _ w, (r, w).

(** Keyword arguments that can go with [method], [url] and [headers=]
    in one call. *)
Definition passable (kwargs : dict) : Prop :=
  kwargs !! "method" = None ∧ kwargs !! "url" = None ∧ kwargs !! "headers" = None.

#[export] Instance passable_dec kwargs : Decision (passable kwargs).
Proof. unfold passable. apply _. Defined.

(** The call [requests.request(method, url, headers=headers, **kwargs)]:
    a key of [kwargs] named like one of the other arguments is a
    [TypeError] of the call itself; otherwise one request goes out. *)
Definition requests_request (method url : string)
    (headers : gmap string string) (kwargs : dict) : M response :=
  λ srv w,
    if decide (passable kwargs) then
      let req := Request method url headers kwargs in
      (match srv w req with
       | Failed e => Raise e
       | Answered r => Ok r
       end, w ++ [req])
    else (Raise (TypeError "request() got multiple values for keyword argument"), w).

(** [Response.raise_for_status]: client (4xx) and server (5xx) errors. *)
Definition raise_for_status (r : response) : result unit :=
  if ((400 <=? status_code r) && (status_code r <? 600))%Z
  then Raise (HTTPError r) else Ok tt.

(** [Response.json]. *)
Definition Response_json (r : response) : result json :=
  match body r with
  | Some j => Ok j
  | None => Raise JSONDecodeError
  end.

(** ** Client *)

Record client := Client { _headers : gmap string string; _url_prefix : string }.

Definition _BASE_URL := "https://api.notion.com".
Definition _API_VERSION := "v1".
Definition _NOTION_VERSION := "2021-08-16".

Definition Client_init (auth notion_version api_version : string) : client :=
  {| _headers := {[ "Authorization" := "Bearer " +:+ auth;
                    "Notion-Version" := notion_version;
                    "Content-Type" := "application/json" ]};
     _url_prefix := _BASE_URL +:+ "/" +:+ api_version |}.

(** [Client.request]. *)
Definition request (self : client) (method endpoint : string) (kwargs : dict)
    : M response :=
  let url := _url_prefix self +:+ "/" +:+ endpoint in
  r ← requests_request method url (_headers self) kwargs;
  _ ← lift (raise_for_status r);
  mret r.

(** ** Endpoint *)

Definition lower_ascii (c : Ascii.ascii) : Ascii.ascii :=
  let n := Ascii.nat_of_ascii c in
  if ((65 <=? n) && (n <=? 90))%nat then Ascii.ascii_of_nat (n + 32) else c.

Fixpoint lower (s : string) : string :=
  match s with
  | EmptyString => EmptyString
  | String c s' => String (lower_ascii c) (lower s')
  end.

Record endpoint := Endpoint { _client : client; _name : string }.

(** [Endpoint.__init__], with the name of the class of [self]. *)
Definition Endpoint_init (class_name : string) (c : client) : endpoint :=
  {| _client := c; _name := lower class_name |}.

Definition _build_endpoint (self : endpoint) (action : option string) : string :=
  match action with
  | Some a => _name self +:+ "/" +:+ a
  | None => _name self
  end.

Definition _get (self : endpoint) (action : option string) (kwargs : dict) :=
  request (_client self) "GET" (_build_endpoint self action) kwargs.
Definition _post (self : endpoint) (action : option string) (kwargs : dict) :=
  request (_client self) "POST" (_build_endpoint self action) kwargs.
Definition _patch (self : endpoint) (action : option string) (kwargs : dict) :=
  request (_client self) "PATCH" (_build_endpoint self action) kwargs.
Definition _delete (self : endpoint) (action : option string) (kwargs : dict) :=
  request (_client self) "DELETE" (_build_endpoint self action) kwargs.

(** The keyword arguments of a call [f(json=payload)]. *)
Definition json_kw (payload : dict) : dict := {[ "json" := JDict payload ]}.

(** ** Generator objects of the endpoint layer *)

(** The generator functions of the endpoint classes: those with a
    positional id parameter and those with a payload only. *)
Inductive id_method := DatabasesQuery | BlocksChildrenList | BlocksChildrenAppend.
Inductive plain_method := DatabasesList | UsersList | SearchCall.
Inductive method := WithId (m : id_method) | Plain (m : plain_method).

(** A generator function with its positional parameter bound. *)
Inductive invocation :=
| CallWithId (m : id_method) (id : string)
| CallPlain (m : plain_method).

Definition method_of (c : invocation) : method :=
  match c with
  | CallWithId m _ => WithId m
  | CallPlain m => Plain m
  end.

(** The tuple the body passes on as [*args]. *)
Definition positional (c : invocation) : list string :=
  match c with
  | CallWithId _ id => [id]
  | CallPlain _ => []
  end.

(** Where a generator of the endpoint layer stands: not started, inside
    [yield from paginate(...)], or over. *)
Inductive gstate :=
| Created
| Delegating (inner : frame (list string))
| Finished.

Record generator := Generator {
  g_self : endpoint;
  g_call : invocation;
  g_payload : dict;
  g_state : gstate
}.

Definition in_state (s : gstate) (g : generator) : generator :=
  Generator (g_self g) (g_call g) (g_payload g) s.

(** The objects a generator of this program can yield. *)
Inductive value :=
| VJson (j : json)
| VGen (g : generator).

(** ** The endpoint classes

    For a generator function, [f_request] is the statement before
    [data = r.json()] and [f] is the call itself, which only makes the
    generator object. The other methods run when called. *)

Module Databases.
Definition query_request (self : endpoint) (database_id : string) (payload : dict)
    : M response :=
  _post self (Some (database_id +:+ "/query")) (json_kw payload).

Definition query (self : endpoint) (database_id : string) (payload : dict) : generator :=
  Generator self (CallWithId DatabasesQuery database_id) payload Created.

Definition create (self : endpoint) (payload : dict) : M json :=
  r ← _post self None (json_kw payload);
  lift (Response_json r).

Definition update (self : endpoint) (database_id : string) (payload : dict) : M json :=
  r ← _patch self (Some database_id) (json_kw payload);
  lift (Response_json r).

Definition retrieve (self : endpoint) (database_id : string) (payload : dict) : M json :=
  r ← _get self (Some database_id) (json_kw payload);
  lift (Response_json r).

Definition list_request (self : endpoint) (payload : dict) : M response :=
  _get self None (json_kw payload).

Definition list (self : endpoint) (payload : dict) : generator :=
  Generator self (CallPlain DatabasesList) payload Created.
End Databases.

Module Pages.
Definition retrieve (self : endpoint) (page_id : string) (payload : dict) : M json :=
  r ← _get self (Some page_id) (json_kw payload);
  lift (Response_json r).

Definition create (self : endpoint) (payload : dict) : M json :=
  r ← _post self None (json_kw payload);
  lift (Response_json r).

Definition update (self : endpoint) (page_id : string) (payload : dict) : M json :=
  r ← _patch self (Some page_id) (json_kw payload);
  lift (Response_json r).
End Pages.

Module Blocks.
Definition retrieve (self : endpoint) (block_id : string) (payload : dict) : M json :=
  r ← _get self (Some block_id) (json_kw payload);
  lift (Response_json r).

Definition update (self : endpoint) (block_id : string) (payload : dict) : M json :=
  r ← _patch self (Some block_id) (json_kw payload);
  lift (Response_json r).

Definition delete (self : endpoint) (block_id : string) (payload : dict) : M json :=
  r ← _delete self (Some block_id) (json_kw payload);
  lift (Response_json r).
End Blocks.

Module BlocksChildren.
Definition list_request (self : endpoint) (block_id : string) (payload : dict)
    : M response :=
  request (_client self) "GET" ("blocks/" +:+ block_id +:+ "/children") (json_kw payload).

Definition list (self : endpoint) (block_id : string) (payload : dict) : generator :=
  Generator self (CallWithId BlocksChildrenList block_id) payload Created.

Definition append_request (self : endpoint) (block_id : string) (payload : dict)
    : M response :=
  request (_client self) "PATCH" ("blocks/" +:+ block_id +:+ "/children") (json_kw payload).

Definition append (self : endpoint) (block_id : string) (payload : dict) : generator :=
  Generator self (CallWithId BlocksChildrenAppend block_id) payload Created.
End BlocksChildren.

Module Users.
Definition retrieve (self : endpoint) (user_id : string) (payload : dict) : M json :=
  r ← _get self (Some user_id) (json_kw payload);
  lift (Response_json r).

Definition list_request (self : endpoint) (payload : dict) : M response :=
  _get self None (json_kw payload).

Definition list (self : endpoint) (payload : dict) : generator :=
  Generator self (CallPlain UsersList) payload Created.

Definition me (self : endpoint) : M json :=
  r ← _get self (Some "me") ∅;
  lift (Response_json r).
End Users.

Module Search.
Definition __call___request (self : endpoint) (payload : dict) : M response :=
  _post self None (json_kw payload).

Definition __call__ (self : endpoint) (payload : dict) : generator :=
  Generator self (CallPlain SearchCall) payload Created.
End Search.

(** The attributes set up by [Client.__init__]. *)
Definition databases (c : client) : endpoint := Endpoint_init "Databases" c.
Definition pages (c : client) : endpoint := Endpoint_init "Pages" c.
Definition blocks (c : client) : endpoint := Endpoint_init "Blocks" c.
Definition blocks_children (c : client) : endpoint := Endpoint_init "BlocksChildren" c.
Definition users (c : client) : endpoint := Endpoint_init "Users" c.
Definition search (c : client) : endpoint := Endpoint_init "Search" c.

(** ** Running a generator of the endpoint layer *)

(** The statement that sends the first request of a generator body. *)
Definition first_request (g : generator) : M response :=
  match g_call g with
  | CallWithId DatabasesQuery database_id =>
      Databases.query_request (g_self g) database_id (g_payload g)
  | CallWithId BlocksChildrenList block_id =>
      BlocksChildren.list_request (g_self g) block_id (g_payload g)
  | CallWithId BlocksChildrenAppend block_id =>
      BlocksChildren.append_request (g_self g) block_id (g_payload g)
  | CallPlain DatabasesList => Databases.list_request (g_self g) (g_payload g)
  | CallPlain UsersList => Users.list_request (g_self g) (g_payload g)
  | CallPlain SearchCall => Search.__call___request (g_self g) (g_payload g)
  end.

(** The name of the positional parameter of a generator function. *)
Definition id_param (m : id_method) : string :=
  match m with
  | DatabasesQuery => "database_id"
  | BlocksChildrenList => "block_id"
  | BlocksChildrenAppend => "block_id"
  end.

(** Calling a bound generator method as [fn( *args, **kwargs)]: the
    parameters are bound (or the call raises [TypeError]) and a generator
    object is returned; no line of the body runs. Ids are strings. *)
Definition call_method (m : method) (self : endpoint)
    (args : list string) (kwargs : dict) : result generator :=
  if bool_decide (is_Some (kwargs !! "self")) then
    Raise (TypeError "got multiple values for argument 'self'")
  else
    match m, args with
    | WithId im, [id] =>
        if bool_decide (is_Some (kwargs !! id_param im)) then
          Raise (TypeError "got multiple values for argument")
        else Ok (Generator self (CallWithId im id) kwargs Created)
    | WithId im, [] =>
        match kwargs !! id_param im with
        | Some (JStr id) =>
            Ok (Generator self (CallWithId im id) (delete (id_param im) kwargs) Created)
        | _ => Raise (TypeError "missing 1 required positional argument")
        end
    | Plain pm, [] => Ok (Generator self (CallPlain pm) kwargs Created)
    | _, _ => Raise (TypeError "too many positional arguments")
    end.

(** [self.query], [self.list], ... as the callable handed to [paginate]. *)
Definition bound_method (m : method) (self : endpoint)
    (args : list string) (kwargs : dict) (w : log) : result value * log :=
  match call_method m self args kwargs with
  | Ok g => (Ok (VGen g), w)
  | Raise e => (Raise e, w)
  end.

(** The call [self._client.paginate(fn, data, *args, **payload)]: a key
    of the payload named like a parameter of [paginate] is a [TypeError]. *)
Definition call_paginate (data : json) (args : list string) (payload : dict)
    : result (frame (list string)) :=
  if bool_decide (is_Some (payload !! "fn") ∨ is_Some (payload !! "data")) then
    Raise (TypeError "paginate() got multiple values for argument")
  else Ok (paginate data args payload).

(** One [next()] on the inner generator, for [yield from]. *)
Definition delegate (g : generator) (inner : frame (list string)) (w : log)
    : step value * generator * log :=
  match next VJson (bound_method (method_of (g_call g)) (g_self g)) inner w with
  | (Yield v, inner', w') => (Yield v, in_state (Delegating inner') g, w')
  | (StopIteration, _, w') => (StopIteration, in_state Finished g, w')
  | (Throw e, _, w') => (Throw e, in_state Finished g, w')
  end.

(** One [next()] on a generator of the endpoint layer:
<<
        r = <first request>
        data = r.json()
        yield from self._client.paginate(self.<method>, data, <id>, **payload)
>> *)
Definition gen_next (srv : server) (g : generator) (w : log)
    : step value * generator * log :=
  match g_state g with
  | Created =>
      match (r ← first_request g; lift (Response_json r)) srv w with
      | (Raise e, w') => (Throw e, in_state Finished g, w')
      | (Ok data, w') =>
          match call_paginate data (positional (g_call g)) (g_payload g) with
          | Raise e => (Throw e, in_state Finished g, w')
          | Ok inner => delegate g inner w'
          end
      end
  | Delegating inner => delegate g inner w
  | Finished => (StopIteration, g, w)
  end.

(** ** The loop of the tests

    [src/tests/test_client.py] consumes every list operation with
<<
        for response in <generator>:
            actual_count += len(response['results'])
>> *)

Definition getitem (v : value) (key : string) : result json :=
  match v with
  | VJson j => subscript j key
  | VGen _ => Raise (TypeError "'generator' object is not subscriptable")
  end.

Definition len (v : json) : result nat :=
  match v with
  | JList l => Ok (length l)
  | JDict m => Ok (size m)
  | JStr s => Ok (String.length s)
  | _ => Raise (TypeError "object has no len()")
  end.

(** The loop, pulling at most [fuel] times; [None] is the loop that has
    not ended by then. The body sends nothing, so the log moves with the
    pulls alone. *)
Fixpoint count_results (fuel : nat) (srv : server) (g : generator) (w : log)
    (actual_count : nat) : option (result nat) * log :=
  match fuel with
  | 0 => (None, w)
  | S fuel' =>
      match gen_next srv g w with
      | (Yield response, g', w') =>
          match getitem response "results" with
          | Raise e => (Some (Raise e), w')
          | Ok results =>
              match len results with
              | Raise e => (Some (Raise e), w')
              | Ok n => count_results fuel' srv g' w' (actual_count + n)
              end
          end
      | (StopIteration, _, w') => (Some (Ok actual_count), w')
      | (Throw e, _, w') => (Some (Raise e), w')
      end
  end.

(** A method that runs when called, as the callable [fn]: here
    [self.retrieve] of [Databases], called as [fn( *args, **kwargs)]. *)
Definition bound_retrieve (srv : server) (self : endpoint)
    (args : list string) (kwargs : dict) (w : log) : result value * log :=
  match args with
  | [database_id] =>
      match Databases.retrieve self database_id kwargs srv w with
      | (Ok j, w') => (Ok (VJson j), w')
      | (Raise e, w') => (Raise e, w')
      end
  | _ => (Raise (TypeError "retrieve() takes 2 positional arguments"), w)
  end.

(** ** Vocabulary of the statements *)

Section Pulls.
Context {A W : Type}.
Variable fn : A → dict → W → result value * W.

Implicit Types (data : json) (args : A) (kwargs : dict) (w : W).

(** What the second pull can be, in one case analysis. *)
Inductive second_pull data args kwargs w : step value * frame A * W → Prop :=
| SecondLookupError e :
    subscript data "has_more" = Raise e →
    second_pull data args kwargs w
      (Throw e, at_pc Returned (paginate data args kwargs), w)
| SecondDone has_more :
    subscript data "has_more" = Ok has_more → truthy has_more = false →
    second_pull data args kwargs w
      (StopIteration, at_pc Returned (paginate data args kwargs), w)
| SecondCursorError has_more e :
    subscript data "has_more" = Ok has_more → truthy has_more = true →
    subscript data "next_cursor" = Raise e →
    second_pull data args kwargs w
      (Throw e, at_pc Returned (paginate data args kwargs), w)
| SecondFetched has_more cursor v w' :
    subscript data "has_more" = Ok has_more → truthy has_more = true →
    subscript data "next_cursor" = Ok cursor →
    fn args (<["start_cursor" := cursor]> kwargs) w = (Ok v, w') →
    second_pull data args kwargs w
      (Yield v,
       at_pc AtYield2
         (with_kwargs (<["start_cursor" := cursor]> kwargs) (paginate data args kwargs)),
       w')
| SecondFetchFailed has_more cursor e w' :
    subscript data "has_more" = Ok has_more → truthy has_more = true →
    subscript data "next_cursor" = Ok cursor →
    fn args (<["start_cursor" := cursor]> kwargs) w = (Raise e, w') →
    second_pull data args kwargs w
      (Throw e,
       at_pc Returned
         (with_kwargs (<["start_cursor" := cursor]> kwargs) (paginate data args kwargs)),
       w').

(** The frames a generator made by [paginate(fn, data, *args,
    **kwargs)] can be in, whatever the state it is resumed in. *)
Inductive reachable data args kwargs : frame A → Prop :=
| ReachCall : reachable data args kwargs (paginate data args kwargs)
| ReachNext g w :
    reachable data args kwargs g →
    reachable data args kwargs (next VJson fn g w).1.2.

(** What holds of every such frame: the local [kwargs] is a dict, and
    until the follow-up call it is the dict collected at the call. *)
Definition frame_inv data args kwargs (g : frame A) : Prop :=
  f_data g = data ∧ f_args g = args
  ∧ ∃ kw, f_kwargs g = Some kw
          ∧ (f_pc g = AtEntry ∨ f_pc g = AtYield1 → kw = kwargs).
End Pulls.

(** The request [Client.request] puts on the wire. *)
Definition wire (self : client) (method endpoint : string) (kwargs : dict)
    : http_request :=
  Request method (_url_prefix self +:+ "/" +:+ endpoint) (_headers self) kwargs.

(** An answer of the transport, after the status check. *)
Definition checked (o : outcome) : result response :=
  match o with
  | Failed e => Raise e
  | Answered r =>
      match raise_for_status r with
      | Raise e => Raise e
      | Ok _ => Ok r
      end
  end.

(** An answer of the transport, after the status check and [r.json()]. *)
Definition decode (o : outcome) : result json :=
  match checked o with
  | Raise e => Raise e
  | Ok r => Response_json r
  end.

(** A payload whose keys collide with no parameter name: not with
    [self] or the id parameter of the generator function (such a payload
    cannot come out of a call of it), nor with [fn] or [data] of
    [paginate]. *)
Definition plain_payload (call : invocation) (payload : dict) : Prop :=
  payload !! "self" = None
  ∧ payload !! "fn" = None
  ∧ payload !! "data" = None
  ∧ match call with
    | CallWithId m _ => payload !! id_param m = None
    | CallPlain _ => True
    end.

(** The calls of the methods that are not generator functions. *)
Inductive single_call :=
| DatabasesCreate (payload : dict)
| DatabasesUpdate (database_id : string) (payload : dict)
| DatabasesRetrieve (database_id : string) (payload : dict)
| PagesRetrieve (page_id : string) (payload : dict)
| PagesCreate (payload : dict)
| PagesUpdate (page_id : string) (payload : dict)
| BlocksRetrieve (block_id : string) (payload : dict)
| BlocksUpdate (block_id : string) (payload : dict)
| BlocksDelete (block_id : string) (payload : dict)
| UsersRetrieve (user_id : string) (payload : dict)
| UsersMe.

Definition run_single (c : client) (call : single_call) : M json :=
  match call with
  | DatabasesCreate payload => Databases.create (databases c) payload
  | DatabasesUpdate id payload => Databases.update (databases c) id payload
  | DatabasesRetrieve id payload => Databases.retrieve (databases c) id payload
  | PagesRetrieve id payload => Pages.retrieve (pages c) id payload
  | PagesCreate payload => Pages.create (pages c) payload
  | PagesUpdate id payload => Pages.update (pages c) id payload
  | BlocksRetrieve id payload => Blocks.retrieve (blocks c) id payload
  | BlocksUpdate id payload => Blocks.update (blocks c) id payload
  | BlocksDelete id payload => Blocks.delete (blocks c) id payload
  | UsersRetrieve id payload => Users.retrieve (users c) id payload
  | UsersMe => Users.me (users c)
  end.

(** The request of each method that is not a generator function, as a
    reader of the class bodies lists them: verb, path below the url
    prefix, keyword arguments. *)
Definition single_route (call : single_call) : string * string * dict :=
  match call with
  | DatabasesCreate payload => ("POST", "databases", json_kw payload)
  | DatabasesUpdate id payload => ("PATCH", "databases/" +:+ id, json_kw payload)
  | DatabasesRetrieve id payload => ("GET", "databases/" +:+ id, json_kw payload)
  | PagesRetrieve id payload => ("GET", "pages/" +:+ id, json_kw payload)
  | PagesCreate payload => ("POST", "pages", json_kw payload)
  | PagesUpdate id payload => ("PATCH", "pages/" +:+ id, json_kw payload)
  | BlocksRetrieve id payload => ("GET", "blocks/" +:+ id, json_kw payload)
  | BlocksUpdate id payload => ("PATCH", "blocks/" +:+ id, json_kw payload)
  | BlocksDelete id payload => ("DELETE", "blocks/" +:+ id, json_kw payload)
  | UsersRetrieve id payload => ("GET", "users/" +:+ id, json_kw payload)
  | UsersMe => ("GET", "users/me", ∅)
  end.

(** The attribute of the client a generator function is reached by:
    [client.databases.query], [client.blocks.children.list], ... *)
Definition endpoint_of (c : client) (call : invocation) : endpoint :=
  match call with
  | CallWithId DatabasesQuery _ => databases c
  | CallWithId BlocksChildrenList _ => blocks_children c
  | CallWithId BlocksChildrenAppend _ => blocks_children c
  | CallPlain DatabasesList => databases c
  | CallPlain UsersList => users c
  | CallPlain SearchCall => search c
  end.

(** The generator a list operation of the client returns. *)
Definition client_generator (c : client) (call : invocation) (payload : dict)
    : generator :=
  Generator (endpoint_of c call) call payload Created.

(** Verb and path of the first request of each generator function. *)
Definition generator_route (call : invocation) : string * string :=
  match call with
  | CallWithId DatabasesQuery id => ("POST", "databases/" +:+ id +:+ "/query")
  | CallWithId BlocksChildrenList id => ("GET", "blocks/" +:+ id +:+ "/children")
  | CallWithId BlocksChildrenAppend id => ("PATCH", "blocks/" +:+ id +:+ "/children")
  | CallPlain DatabasesList => ("GET", "databases")
  | CallPlain UsersList => ("GET", "users")
  | CallPlain SearchCall => ("POST", "search")
  end.

(** A status [raise_for_status] lets through. *)
Definition passes_status (r : response) : Prop :=
  (status_code r < 400 ∨ 600 ≤ status_code r)%Z.

(** ** Fixtures *)

Definition notion : client := Client_init "secret" _NOTION_VERSION _API_VERSION.

Definition page1 : json :=
  JDict {[ "results" := JList [JStr "a"; JStr "b"];
           "has_more" := JBool true;
           "next_cursor" := JStr "X" ]}.

Definition page2 : json :=
  JDict {[ "results" := JList [JStr "c"]; "has_more" := JBool false ]}.

(** The cursor a request asks for, if any. *)
Definition cursor_of (req : http_request) : option json :=
  match req_kwargs req !! "json" with
  | Some (JDict payload) => payload !! "start_cursor"
  | _ => None
  end.

(** A server with two pages: [page2] for cursor ["X"], else [page1]. *)
Definition two_pages : server := λ _ req,
  match cursor_of req with
  | Some (JStr "X") => Answered (Response 200 (Some page2))
  | _ => Answered (Response 200 (Some page1))
  end.

Definition page2_more : json :=
  JDict {[ "results" := JList [JStr "c"]; "has_more" := JBool true;
           "next_cursor" := JStr "Z" ]}.

Definition page3 : json :=
  JDict {[ "results" := JList [JStr "d"]; "has_more" := JBool false ]}.

(** A server with three pages, chained by the cursors ["X"] and ["Z"]. *)
Definition three_pages : server := λ _ req,
  match cursor_of req with
  | Some (JStr "X") => Answered (Response 200 (Some page2_more))
  | Some (JStr "Z") => Answered (Response 200 (Some page3))
  | _ => Answered (Response 200 (Some page1))
  end.

Definition pageY : json :=
  JDict {[ "results" := JList []; "has_more" := JBool true; "next_cursor" := JStr "Y" ]}.

Definition error_body : json :=
  JDict {[ "object" := JStr "error"; "status" := JNum 500 ]}.

(** A server that fails with status 500 when asked for cursor ["Y"]. *)
Definition fails_at_Y : server := λ _ req,
  match cursor_of req with
  | Some (JStr "Y") => Answered (Response 500 (Some error_body))
  | _ => Answered (Response 200 (Some pageY))
  end.

(** * Properties *)

(** ** Sanity checks of the embedding *)

Example databases_name : _name (databases notion) = "databases".
Proof. reflexivity. Qed.

Example query_url :
  _url_prefix notion +:+ "/" +:+ _build_endpoint (databases notion) (Some ("db" +:+ "/query"))
  = "https://api.notion.com/v1/databases/db/query".
Proof. reflexivity. Qed.

Example status_404_raises : raise_for_status (Response 404 None) = Raise (HTTPError (Response 404 None)).
Proof. reflexivity. Qed.

Example status_200_passes : raise_for_status (Response 200 None) = Ok tt.
Proof. reflexivity. Qed.

(** ** The paginate generator, pull by pull *)

Section PaginateFacts.
Context {A W : Type}.
Variable fn : A → dict → W → result value * W.

Implicit Types (data : json) (args : A) (kwargs : dict) (w : W).

(** The first pull yields [data] and touches nothing. *)
Lemma next_first data args kwargs w :
  next VJson fn (paginate data args kwargs) w
  = (Yield (VJson data), at_pc AtYield1 (paginate data args kwargs), w).
Proof. reflexivity. Qed.

(** A pull on a generator that is over. *)
Lemma next_returned (g : frame A) w :
  f_pc g = Returned → next VJson fn g w = (StopIteration, g, w).
Proof. intros H. unfold next. by rewrite H. Qed.

(** The second pull when [data['has_more']] raises. *)
Lemma next_second_lookup_error data args kwargs w e :
  subscript data "has_more" = Raise e →
  next VJson fn (at_pc AtYield1 (paginate data args kwargs)) w
  = (Throw e, at_pc Returned (paginate data args kwargs), w).
Proof. intros H. unfold next. simpl. by rewrite H. Qed.

(** The second pull when [data['has_more']] is false. *)
Lemma next_second_done data args kwargs w has_more :
  subscript data "has_more" = Ok has_more → truthy has_more = false →
  next VJson fn (at_pc AtYield1 (paginate data args kwargs)) w
  = (StopIteration, at_pc Returned (paginate data args kwargs), w).
Proof. intros H Ht. unfold next. simpl. by rewrite H, Ht. Qed.

(** The second pull when there is more but no cursor to read. *)
Lemma next_second_cursor_error data args kwargs w has_more e :
  subscript data "has_more" = Ok has_more → truthy has_more = true →
  subscript data "next_cursor" = Raise e →
  next VJson fn (at_pc AtYield1 (paginate data args kwargs)) w
  = (Throw e, at_pc Returned (paginate data args kwargs), w).
Proof. intros H Ht Hc. unfold next. simpl. by rewrite H, Ht, Hc. Qed.

(** The second pull when there is more: [fn] runs once, with the
    cursor written into the collected keyword arguments. *)
Lemma next_second_fetch data args kwargs w has_more cursor :
  subscript data "has_more" = Ok has_more → truthy has_more = true →
  subscript data "next_cursor" = Ok cursor →
  let kw := <["start_cursor" := cursor]> kwargs in
  next VJson fn (at_pc AtYield1 (paginate data args kwargs)) w
  = match fn args kw w with
    | (Ok v, w') =>
        (Yield v, at_pc AtYield2 (with_kwargs kw (paginate data args kwargs)), w')
    | (Raise e, w') =>
        (Throw e, at_pc Returned (with_kwargs kw (paginate data args kwargs)), w')
    end.
Proof. intros H Ht Hc. unfold next. simpl. by rewrite H, Ht, Hc. Qed.

Lemma next_second_cases data args kwargs w :
  second_pull fn data args kwargs w
    (next VJson fn (at_pc AtYield1 (paginate data args kwargs)) w).
Proof.
  destruct (subscript data "has_more") as [has_more|e] eqn:H.
  - destruct (truthy has_more) eqn:Ht.
    + destruct (subscript data "next_cursor") as [cursor|e] eqn:Hc.
      * rewrite (next_second_fetch _ _ _ _ _ _ H Ht Hc). simpl.
        destruct (fn args _ w) as [[v|e] w'] eqn:Hf.
        -- by eapply SecondFetched.
        -- by eapply SecondFetchFailed.
      * rewrite (next_second_cursor_error _ _ _ _ _ _ H Ht Hc).
        by eapply SecondCursorError.
    + rewrite (next_second_done _ _ _ _ _ H Ht). by eapply SecondDone.
  - rewrite (next_second_lookup_error _ _ _ _ _ H). by apply SecondLookupError.
Qed.

(** The third pull ends the generator and touches nothing. *)
Lemma next_third data args kwargs kw w :
  next VJson fn (at_pc AtYield2 (with_kwargs kw (paginate data args kwargs))) w
  = (StopIteration, at_pc Returned (with_kwargs kw (paginate data args kwargs)), w).
Proof. reflexivity. Qed.
End PaginateFacts.

(** ** Whole runs of the paginate generator *)

Section PaginateRuns.
Context {A W : Type}.
Variable fn : A → dict → W → result value * W.

Implicit Types (data : json) (args : A) (kwargs : dict) (w : W).

(** A loop over the generator starts with [data]. *)
Lemma collect_first fuel data args kwargs w :
  collect (next VJson fn) (S fuel) (paginate data args kwargs) w
  = let '(vs, e, g, w') :=
      collect (next VJson fn) fuel (at_pc AtYield1 (paginate data args kwargs)) w in
    (VJson data :: vs, e, g, w').
Proof. reflexivity. Qed.

(** After the second element the loop ends at the next pull. *)
Lemma collect_after_second fuel data args kwargs kw w :
  collect (next VJson fn) (S fuel)
    (at_pc AtYield2 (with_kwargs kw (paginate data args kwargs))) w
  = ([], Exhausted, at_pc Returned (with_kwargs kw (paginate data args kwargs)), w).
Proof. reflexivity. Qed.

(** The loop never needs more than three pulls. *)
Lemma collect_three_pulls fuel data args kwargs w :
  ended (collect (next VJson fn) (3 + fuel) (paginate data args kwargs) w) ≠ Pending.
Proof.
  change (3 + fuel) with (S (S (S fuel))).
  rewrite collect_first. cbn [collect].
  destruct (next_second_cases fn data args kwargs w); try done.
Qed.
End PaginateRuns.

(** ** Claims about the paginate generator *)

(** C9. A page mapping without the key [has_more]: the generator yields
    the page as its first element, and the pull after it raises
    [KeyError('has_more')]. The loop ends by that exception, not by
    exhaustion, and [fn] is not run. *)
Theorem missing_has_more_raises {A W : Type}
    (fn : A → dict → W → result value * W)
    (m : dict) (args : A) (kwargs : dict) (w : W) (calls : list (A * dict)) (fuel : nat) :
  m !! "has_more" = None →
  let g := paginate (JDict m) args kwargs in
  (next VJson (spy fn) g (w, calls)).1.1 = Yield (VJson (JDict m))
  ∧ (next VJson (spy fn) (next VJson (spy fn) g (w, calls)).1.2 (w, calls)).1.1
    = Throw (KeyError "has_more")
  ∧ collect (next VJson (spy fn)) (2 + fuel) g (w, calls)
    = ([VJson (JDict m)], Raised (KeyError "has_more"), at_pc Returned g, (w, calls)).
Proof.
  intros Hm g.
  assert (Hs : subscript (JDict m) "has_more" = Raise (KeyError "has_more")).
  { simpl. by rewrite Hm. }
  split; [done|]. split.
  - unfold g. rewrite next_first. simpl.
    by rewrite (next_second_lookup_error _ _ _ _ _ _ Hs).
  - change (2 + fuel) with (S (S fuel)). unfold g.
    rewrite collect_first. cbn [collect].
    by rewrite (next_second_lookup_error _ _ _ _ _ _ Hs).
Qed.

Lemma missing_has_more_raises_witness :
  collect (next VJson (spy (bound_retrieve two_pages (databases notion)))) 2
    (paginate (JDict {[ "results" := JList [] ]}) ["db"] ∅) ([], [])
  = ([VJson (JDict {[ "results" := JList [] ]})], Raised (KeyError "has_more"),
     at_pc Returned (paginate (JDict {[ "results" := JList [] ]}) ["db"] ∅), ([], [])).
Proof.
  apply (missing_has_more_raises (bound_retrieve two_pages (databases notion))
           {[ "results" := JList [] ]} ["db"] ∅ [] [] 0).
  reflexivity.
Defined.

(** What the spy records during the second pull. *)
Lemma spy_fetch {A W : Type} (fn : A → dict → W → result value * W)
    (args : A) (kw : dict) (w : W) (calls : list (A * dict)) r s :
  spy fn args kw (w, calls) = (r, s) →
  r = (fn args kw w).1 ∧ s = ((fn args kw w).2, calls ++ [(args, kw)])%list.
Proof.
  unfold spy. simpl. destruct (fn args kw w) as [r' w']. by intros [= <- <-].
Qed.

(** C3. A first page with [has_more] false: the loop yields that page
    alone, ends by exhaustion, and [fn] is never run. More generally, a
    yielded page with [has_more] false is the last element, the loop ends
    by exhaustion after it, and [fn] ran exactly as often as there are
    elements before it. *)
Theorem has_more_false_is_last {A W : Type}
    (fn : A → dict → W → result value * W)
    (data : json) (args : A) (kwargs : dict) (w : W) (calls : list (A * dict))
    (fuel : nat) :
  let run := collect (next VJson (spy fn)) fuel (paginate data args kwargs) (w, calls) in
  (subscript data "has_more" = Ok (JBool false) → 2 ≤ fuel →
     yielded run = [VJson data] ∧ ended run = Exhausted ∧ state_after run = (w, calls))
  ∧ (∀ (i : nat) (p : json),
       yielded run !! i = Some (VJson p) →
       subscript p "has_more" = Ok (JBool false) →
       length (yielded run) = S i
       ∧ (i + 2 ≤ fuel → ended run = Exhausted)
       ∧ ∃ made, (state_after run).2 = calls ++ made ∧ length made = i).
Proof.
  intros run. subst run. split.
  - intros Hfalse Hfuel.
    destruct fuel as [|[|fuel]]; [lia|lia|].
    rewrite collect_first. cbn [collect].
    by rewrite (next_second_done _ _ _ _ _ _ Hfalse eq_refl).
  - intros i p Hi Hp.
    destruct fuel as [|fuel]; [done|].
    rewrite collect_first in Hi |- *.
    destruct fuel as [|fuel].
    { cbn in Hi |- *. destruct i as [|i]; [|done].
      split; [done|]. split; [lia|]. exists []. by rewrite app_nil_r. }
    cbn [collect] in Hi |- *.
    destruct (next_second_cases (spy fn) data args kwargs (w, calls))
      as [e He|hm Hhm Ht|hm e Hhm Ht Hc|hm c v s Hhm Ht Hc Hf|hm c e s Hhm Ht Hc Hf].
    + cbn in Hi |- *. destruct i as [|i]; [|done].
      injection Hi as ->. congruence.
    + cbn in Hi |- *. destruct i as [|i]; [|done].
      split; [done|]. split; [done|]. exists []. by rewrite app_nil_r.
    + cbn in Hi |- *. destruct i as [|i]; [|done].
      injection Hi as ->. rewrite Hp in Hhm. injection Hhm as <-. done.
    + apply spy_fetch in Hf as [_ ->].
      destruct fuel as [|fuel].
      * cbn in Hi |- *. destruct i as [|[|i]]; [| |done].
        -- injection Hi as ->. rewrite Hp in Hhm. injection Hhm as <-. done.
        -- split; [done|]. split; [lia|]. by exists [(args, <["start_cursor":=c]> kwargs)].
      * rewrite collect_after_second. cbn in Hi |- *.
        destruct i as [|[|i]]; [| |done].
        -- injection Hi as ->. rewrite Hp in Hhm. injection Hhm as <-. done.
        -- split; [done|]. split; [done|]. by exists [(args, <["start_cursor":=c]> kwargs)].
    + cbn in Hi |- *. destruct i as [|i]; [|done].
      injection Hi as ->. rewrite Hp in Hhm. injection Hhm as <-. done.
Qed.

Lemma has_more_false_is_last_witness :
  let run :=
    collect (next VJson (spy (bound_retrieve two_pages (databases notion)))) 3
      (paginate page2 ["db"] ∅) ([], []) in
  yielded run = [VJson page2] ∧ ended run = Exhausted ∧ state_after run = ([], []).
Proof.
  apply (proj1 (has_more_false_is_last (bound_retrieve two_pages (databases notion))
                  page2 ["db"] ∅ [] [] 3)).
  - reflexivity.
  - lia.
Defined.

(** C2. A first page with [has_more] true and [next_cursor] [cursor]:
    over the whole loop [fn] is run exactly once, with the positional
    arguments of the original call and with keyword arguments that hold
    [cursor] under [start_cursor] and agree with the original ones on
    every other key. *)
Theorem next_fetch_uses_cursor {A W : Type}
    (fn : A → dict → W → result value * W)
    (m : dict) (cursor : json) (args : A) (kwargs : dict) (w : W)
    (calls : list (A * dict)) (fuel : nat) :
  m !! "has_more" = Some (JBool true) →
  m !! "next_cursor" = Some cursor →
  let run :=
    collect (next VJson (spy fn)) (2 + fuel) (paginate (JDict m) args kwargs) (w, calls) in
  ∃ kw : dict,
    (state_after run).2 = calls ++ [(args, kw)]
    ∧ kw !! "start_cursor" = Some cursor
    ∧ (∀ k, k ≠ "start_cursor" → kw !! k = kwargs !! k)
    ∧ delete "start_cursor" kw = delete "start_cursor" kwargs.
Proof.
  intros Hm Hc run. subst run.
  assert (H1 : subscript (JDict m) "has_more" = Ok (JBool true)) by (simpl; by rewrite Hm).
  assert (H2 : subscript (JDict m) "next_cursor" = Ok cursor) by (simpl; by rewrite Hc).
  exists (<["start_cursor" := cursor]> kwargs).
  split; [|split; [|split]].
  - change (2 + fuel) with (S (S fuel)). rewrite collect_first. cbn [collect].
    rewrite (next_second_fetch _ _ _ _ _ _ _ H1 eq_refl H2). cbn zeta.
    destruct (spy fn args _ (w, calls)) as [[v|e] s] eqn:Hf;
      apply spy_fetch in Hf as [_ ->]; [|done].
    destruct fuel; [done|]. by rewrite collect_after_second.
  - apply lookup_insert_eq.
  - intros k Hk. by apply lookup_insert_ne.
  - apply delete_insert_eq.
Qed.

Lemma next_fetch_uses_cursor_witness :
  ∃ kw : dict,
    (state_after
       (collect (next VJson (spy (bound_retrieve two_pages (databases notion)))) 3
          (paginate page1 ["db"] {[ "page_size" := JNum 1 ]}) ([], []))).2
    = [(["db"], kw)]
    ∧ kw !! "start_cursor" = Some (JStr "X")
    ∧ (∀ k, k ≠ "start_cursor" → kw !! k = ({[ "page_size" := JNum 1 ]} : dict) !! k)
    ∧ delete "start_cursor" kw = delete "start_cursor" ({[ "page_size" := JNum 1 ]} : dict).
Proof.
  apply (next_fetch_uses_cursor (bound_retrieve two_pages (databases notion))
           {[ "results" := JList [JStr "a"; JStr "b"];
              "has_more" := JBool true;
              "next_cursor" := JStr "X" ]}
           (JStr "X") ["db"] {[ "page_size" := JNum 1 ]} [] [] 1);
    reflexivity.
Defined.

(** ** Requests *)

Lemma json_kw_passable (payload : dict) : passable (json_kw payload).
Proof. by repeat split. Qed.

Lemma empty_passable : passable ∅.
Proof. by repeat split. Qed.

(** [Client.request] sends one request and gives the checked answer. *)
Lemma request_run (self : client) (method endpoint : string) (kwargs : dict)
    (srv : server) (w : log) :
  passable kwargs →
  request self method endpoint kwargs srv w
  = (checked (srv w (wire self method endpoint kwargs)),
     w ++ [wire self method endpoint kwargs]).
Proof.
  intros Hkw.
  unfold request, mbind, M_bind, requests_request, checked, wire, lift, mret, M_ret.
  destruct (decide (passable kwargs)); [|done].
  destruct (srv w _) as [e|r]; [done|].
  by destruct (raise_for_status r).
Qed.

(** With colliding keyword arguments nothing is sent. *)
Lemma request_collision (self : client) (method endpoint : string) (kwargs : dict)
    (srv : server) (w : log) :
  ¬ passable kwargs →
  ∃ msg, request self method endpoint kwargs srv w = (Raise (TypeError msg), w).
Proof.
  intros Hkw. unfold request, mbind, M_bind, requests_request.
  destruct (decide (passable kwargs)); [done|]. by eexists.
Qed.

(** A request followed by [r.json()]. *)
Lemma request_json_run (self : client) (method endpoint : string) (kwargs : dict)
    (srv : server) (w : log) :
  passable kwargs →
  (r ← request self method endpoint kwargs; lift (Response_json r)) srv w
  = (decode (srv w (wire self method endpoint kwargs)),
     w ++ [wire self method endpoint kwargs]).
Proof.
  intros Hkw. unfold mbind, M_bind at 1. rewrite request_run by done.
  unfold decode, lift. by destruct (checked _).
Qed.

(** [self.retrieve] as a callable: one request per call. *)
Lemma bound_retrieve_run (srv : server) (self : endpoint) (id : string)
    (kwargs : dict) (w : log) :
  let req := wire (_client self) "GET" (_build_endpoint self (Some id)) (json_kw kwargs) in
  bound_retrieve srv self [id] kwargs w
  = (match decode (srv w req) with Ok j => Ok (VJson j) | Raise e => Raise e end,
     w ++ [req]).
Proof.
  intros req. unfold bound_retrieve, Databases.retrieve, _get.
  rewrite request_json_run by apply json_kw_passable.
  fold req. by destruct (decode _).
Qed.

(** The calls of [fn], pull by pull: the first pull yields [data] and
    runs nothing. If the second pull yields an element, [fn] ran exactly
    once during that pull and the element is what it returned; if it
    ends the sequence, nothing ran. The third pull ends the sequence and
    runs nothing. With a callable that sends one request per call (here
    [self.retrieve]), the second element costs exactly one request, sent
    during its pull. What the list operations hand over as [fn] is a
    generator function, which sends nothing when called: see
    [second_element_sends_no_request]. *)
Theorem one_fetch_per_pull {A W : Type}
    (fn : A → dict → W → result value * W)
    (data : json) (args : A) (kwargs : dict) (w : W) (calls : list (A * dict)) :
  let g0 := paginate data args kwargs in
  let pull1 := next VJson (spy fn) g0 (w, calls) in
  let pull2 := next VJson (spy fn) pull1.1.2 pull1.2 in
  let pull3 := next VJson (spy fn) pull2.1.2 pull2.2 in
  pull1 = (Yield (VJson data), at_pc AtYield1 g0, (w, calls))
  ∧ (∀ v, pull2.1.1 = Yield v →
       ∃ kw, (fn args kw w).1 = Ok v
             ∧ pull2.2 = ((fn args kw w).2, calls ++ [(args, kw)])
             ∧ pull3.1.1 = StopIteration ∧ pull3.2 = pull2.2)
  ∧ (pull2.1.1 = StopIteration → pull2.2 = (w, calls))
  ∧ (∀ (srv : server) (self : endpoint) (id : string) (w0 : log) v,
       (next VJson (bound_retrieve srv self)
          (at_pc AtYield1 (paginate data [id] kwargs)) w0).1.1 = Yield v →
       ∃ req j,
         (next VJson (bound_retrieve srv self)
            (at_pc AtYield1 (paginate data [id] kwargs)) w0).2 = w0 ++ [req]
         ∧ v = VJson j ∧ decode (srv w0 req) = Ok j).
Proof.
  intros g0 pull1 pull2 pull3.
  split; [done|]. subst pull3 pull2 pull1 g0. rewrite next_first. cbn [fst snd].
  split; [|split].
  - intros v Hv.
    destruct (next_second_cases (spy fn) data args kwargs (w, calls))
      as [e He|hm Hhm Ht|hm e Hhm Ht Hc|hm c v' s Hhm Ht Hc Hf|hm c e s Hhm Ht Hc Hf];
      try discriminate Hv.
    cbn [fst snd] in Hv |- *. injection Hv as ->.
    apply spy_fetch in Hf as [Hr ->].
    exists (<["start_cursor" := c]> kwargs). by rewrite <- Hr.
  - intros Hstop.
    destruct (next_second_cases (spy fn) data args kwargs (w, calls)); try discriminate Hstop.
    done.
  - intros srv self id w0 v Hv.
    destruct (next_second_cases (bound_retrieve srv self) data [id] kwargs w0)
      as [e He|hm Hhm Ht|hm e Hhm Ht Hc|hm c v' s Hhm Ht Hc Hf|hm c e s Hhm Ht Hc Hf];
      try discriminate Hv.
    cbn [fst snd] in Hv |- *. injection Hv as ->.
    rewrite bound_retrieve_run in Hf. cbn zeta in Hf.
    injection Hf as Hd <-.
    destruct (decode _) as [j|e] eqn:Hj; [|done].
    injection Hd as <-. by eexists _, j.
Qed.

Lemma one_fetch_per_pull_witness :
  ∃ req j,
    (next VJson (bound_retrieve two_pages (databases notion))
       (at_pc AtYield1 (paginate page1 ["db"] ∅)) []).2 = [] ++ [req]
    ∧ VJson page2 = VJson j ∧ decode (two_pages [] req) = Ok j.
Proof.
  apply (proj2 (proj2 (proj2
           (one_fetch_per_pull (bound_retrieve two_pages (databases notion))
              page1 ["db"] ∅ [] [])))
           two_pages (databases notion) "db" [] (VJson page2)).
  reflexivity.
Defined.

(** ** The endpoint layer, pull by pull *)

(** Every generator body starts with one request of the client. *)
Lemma first_request_wire (g : generator) :
  ∃ req, ∀ (srv : server) (w : log),
    first_request g srv w = (checked (srv w req), w ++ [req]).
Proof.
  destruct g as [self [[] id|[]] payload st]; eexists; intros srv w;
    unfold first_request; cbn [g_call g_self g_payload];
    unfold Databases.query_request, Databases.list_request,
      BlocksChildren.list_request, BlocksChildren.append_request,
      Users.list_request, Search.__call___request, _get, _post;
    apply request_run, json_kw_passable.
Qed.

(** Every method that is not a generator function is one request and
    [r.json()]. *)
Lemma run_single_wire (c : client) (call : single_call) :
  ∃ req, ∀ (srv : server) (w : log),
    run_single c call srv w = (decode (srv w req), w ++ [req]).
Proof.
  destruct call; eexists; intros srv w; unfold run_single;
    unfold Databases.create, Databases.update, Databases.retrieve,
      Pages.retrieve, Pages.create, Pages.update,
      Blocks.retrieve, Blocks.update, Blocks.delete,
      Users.retrieve, Users.me, _get, _post, _patch, _delete;
    apply request_json_run; first [apply json_kw_passable | apply empty_passable].
Qed.

(** The first pull on a generator of the endpoint layer. *)
Lemma gen_next_created (g : generator) :
  g_state g = Created →
  ∃ req, ∀ (srv : server) (w : log),
    gen_next srv g w
    = match decode (srv w req) with
      | Raise e => (Throw e, in_state Finished g, w ++ [req])
      | Ok data =>
          match call_paginate data (positional (g_call g)) (g_payload g) with
          | Raise e => (Throw e, in_state Finished g, w ++ [req])
          | Ok inner =>
              (Yield (VJson data), in_state (Delegating (at_pc AtYield1 inner)) g,
               w ++ [req])
          end
      end.
Proof.
  intros Hst. destruct (first_request_wire g) as [req Hreq].
  exists req. intros srv w. unfold gen_next. rewrite Hst.
  unfold mbind, M_bind. rewrite Hreq. unfold decode, lift.
  destruct (checked _) as [r|e]; [|done].
  destruct (Response_json r) as [data|e]; [|done].
  destruct (call_paginate _ _ _) as [inner|e] eqn:Hcall; [|done].
  unfold call_paginate in Hcall. case_bool_decide; [done|].
  by injection Hcall as <-.
Qed.

(** A generator that is over stays over and sends nothing. *)
Lemma gen_next_finished (srv : server) (g : generator) (w : log) :
  gen_next srv (in_state Finished g) w = (StopIteration, in_state Finished g, w).
Proof. reflexivity. Qed.

(** ** Failures *)

Lemma checked_error_status (r : response) :
  (400 ≤ status_code r < 600)%Z → checked (Answered r) = Raise (HTTPError r).
Proof.
  intros [Hlo Hhi]. unfold checked, raise_for_status.
  destruct (Z.leb_spec 400 (status_code r)); [|lia].
  destruct (Z.ltb_spec (status_code r) 600); [done|lia].
Qed.

Lemma decode_error_status (r : response) :
  (400 ≤ status_code r < 600)%Z → decode (Answered r) = Raise (HTTPError r).
Proof. intros H. unfold decode. by rewrite checked_error_status. Qed.

(** C5. A failing fetch. In a paginate generator whose follow-up call
    of [fn] raises [e]: the first page is yielded, the pull for the
    second element raises [e], [fn] was run that one time only, and every
    later pull finds the generator over. In a generator of the endpoint
    layer whose first request fails with [e]: nothing is yielded, the
    first pull raises [e] after that one request, and every later pull
    finds the generator over. *)
Theorem failed_fetch_ends_sequence :
  (∀ (A W : Type) (fn : A → dict → W → result value * W)
     (data : json) (args : A) (kwargs : dict) (w : W) (calls : list (A * dict))
     (has_more cursor : json) (e : exn) (fuel : nat),
     subscript data "has_more" = Ok has_more → truthy has_more = true →
     subscript data "next_cursor" = Ok cursor →
     (fn args (<["start_cursor" := cursor]> kwargs) w).1 = Raise e →
     let run :=
       collect (next VJson (spy fn)) (2 + fuel) (paginate data args kwargs) (w, calls) in
     yielded run = [VJson data]
     ∧ ended run = Raised e
     ∧ (state_after run).2 = calls ++ [(args, <["start_cursor" := cursor]> kwargs)]
     ∧ ∀ s, next VJson (spy fn) (generator_after run) s
            = (StopIteration, generator_after run, s))
  ∧ (∀ (g : generator), g_state g = Created →
     ∃ req, ∀ (srv : server) (w : log) (e : exn) (fuel : nat),
       decode (srv w req) = Raise e →
       collect (gen_next srv) (1 + fuel) g w
       = ([], Raised e, in_state Finished g, w ++ [req])
       ∧ ∀ w', gen_next srv (in_state Finished g) w'
               = (StopIteration, in_state Finished g, w')).
Proof.
  split.
  - intros A W fn data args kwargs w calls hm cursor e fuel Hhm Ht Hc Hf run.
    subst run. change (2 + fuel) with (S (S fuel)).
    rewrite collect_first. cbn [collect].
    rewrite (next_second_fetch _ _ _ _ _ _ _ Hhm Ht Hc). cbn zeta.
    destruct (spy fn args _ (w, calls)) as [r s] eqn:Hspy.
    apply spy_fetch in Hspy as [-> ->]. rewrite Hf.
    do 3 (split; [done|]). intros s. by apply next_returned.
  - intros g Hst. destruct (gen_next_created g Hst) as [req Hreq].
    exists req. intros srv w e fuel He. split; [|done].
    change (1 + fuel) with (S fuel). cbn [collect].
    by rewrite Hreq, He.
Qed.

Lemma failed_fetch_ends_sequence_witness :
  let run :=
    collect (next VJson (spy (bound_retrieve fails_at_Y (databases notion)))) 3
      (paginate pageY ["db"] ∅) ([], []) in
  yielded run = [VJson pageY]
  ∧ ended run = Raised (HTTPError (Response 500 (Some error_body)))
  ∧ (state_after run).2 = [] ++ [(["db"], <["start_cursor" := JStr "Y"]> ∅)]
  ∧ ∀ s, next VJson (spy (bound_retrieve fails_at_Y (databases notion)))
           (generator_after run) s
         = (StopIteration, generator_after run, s).
Proof.
  apply (proj1 failed_fetch_ends_sequence (list string) log
           (bound_retrieve fails_at_Y (databases notion))
           pageY ["db"] ∅ [] [] (JBool true) (JStr "Y")
           (HTTPError (Response 500 (Some error_body))) 1);
    reflexivity.
Defined.

(** C6. A response with an error status (4xx or 5xx, the statuses
    [raise_for_status] rejects) to a request that went out:
    [Client.request] raises [HTTPError] with that response after the one
    request it sent, whatever code follows the request does not run,
    every method that is not a generator function raises that same error
    after its one request, and a generator of the endpoint layer raises
    it at its first pull without yielding anything. No second request is
    sent anywhere. *)
Theorem error_status_raises_at_call_site :
  (∀ (self : client) (method endpoint : string) (kwargs : dict)
     (srv : server) (w : log) (r : response),
     passable kwargs →
     srv w (wire self method endpoint kwargs) = Answered r →
     (400 ≤ status_code r < 600)%Z →
     request self method endpoint kwargs srv w
     = (Raise (HTTPError r), w ++ [wire self method endpoint kwargs])
     ∧ ∀ (B : Type) (k : response → M B),
         (x ← request self method endpoint kwargs; k x) srv w
         = (Raise (HTTPError r), w ++ [wire self method endpoint kwargs]))
  ∧ (∀ (c : client) (call : single_call),
     ∃ req, ∀ (srv : server) (w : log) (r : response),
       srv w req = Answered r → (400 ≤ status_code r < 600)%Z →
       run_single c call srv w = (Raise (HTTPError r), w ++ [req]))
  ∧ (∀ (g : generator), g_state g = Created →
     ∃ req, ∀ (srv : server) (w : log) (r : response) (fuel : nat),
       srv w req = Answered r → (400 ≤ status_code r < 600)%Z →
       collect (gen_next srv) (1 + fuel) g w
       = ([], Raised (HTTPError r), in_state Finished g, w ++ [req])).
Proof.
  split; [|split].
  - intros self method endpoint kwargs srv w r Hkw Hsrv Hst.
    assert (Hreq : request self method endpoint kwargs srv w
                   = (Raise (HTTPError r), w ++ [wire self method endpoint kwargs])).
    { by rewrite request_run, Hsrv, checked_error_status. }
    split; [done|]. intros B k. unfold mbind, M_bind. by rewrite Hreq.
  - intros c call. destruct (run_single_wire c call) as [req Hreq].
    exists req. intros srv w r Hsrv Hst.
    by rewrite Hreq, Hsrv, decode_error_status.
  - intros g Hcreated. destruct (gen_next_created g Hcreated) as [req Hreq].
    exists req. intros srv w r fuel Hsrv Hst.
    change (1 + fuel) with (S fuel). cbn [collect].
    by rewrite Hreq, Hsrv, decode_error_status.
Qed.

Lemma error_status_raises_at_call_site_witness :
  request notion "GET" "users/me" ∅ (λ _ _, Answered (Response 404 None)) []
  = (Raise (HTTPError (Response 404 None)), [] ++ [wire notion "GET" "users/me" ∅]).
Proof.
  apply (proj1 error_status_raises_at_call_site notion "GET" "users/me" ∅
           (λ _ _, Answered (Response 404 None)) [] (Response 404 None)).
  - by repeat split.
  - reflexivity.
  - simpl. lia.
Defined.

(** ** The contract of the endpoint layer *)

(** The list operations named by the claim are generator functions:
    calling one sends nothing and returns a generator not yet started. *)
Lemma list_operations_are_generators (c : client) (id : string) (payload : dict) :
  g_state (Databases.query (databases c) id payload) = Created
  ∧ g_state (Databases.list (databases c) payload) = Created
  ∧ g_state (BlocksChildren.list (blocks_children c) id payload) = Created
  ∧ g_state (Users.list (users c) payload) = Created
  ∧ g_state (Search.__call__ (search c) payload) = Created.
Proof. by repeat split. Qed.

(** The first pull and the single methods. Every method that is not a
    generator function sends exactly one request and returns what
    [r.json()] decodes from the checked answer (or raises); its result
    is JSON data, not a generator. Every list operation is a generator
    whose first pull sends exactly one request and never finds the
    sequence empty: when that request is answered with a page and the
    payload has no key named like a parameter of [paginate], the first
    pull yields that page, whatever the page holds. What follows the
    first page is the subject of [list_operation_is_not_paginated]. *)
Theorem endpoint_contract (c : client) :
  (∀ (call : single_call),
     ∃ req, ∀ (srv : server) (w : log),
       run_single c call srv w = (decode (srv w req), w ++ [req]))
  ∧ (∀ (g : generator), g_state g = Created →
     ∃ req, ∀ (srv : server) (w : log),
       (gen_next srv g w).2 = w ++ [req]
       ∧ (gen_next srv g w).1.1 ≠ StopIteration
       ∧ ∀ data, decode (srv w req) = Ok data →
           g_payload g !! "fn" = None → g_payload g !! "data" = None →
           (gen_next srv g w).1.1 = Yield (VJson data)).
Proof.
  split.
  - apply run_single_wire.
  - intros g Hst. destruct (gen_next_created g Hst) as [req Hreq].
    exists req. intros srv w. rewrite Hreq.
    destruct (decode (srv w req)) as [data|e] eqn:Hdec.
    + unfold call_paginate. case_bool_decide as Hkeys.
      * split; [done|]. split; [done|].
        intros data' _ Hfn Hdata. destruct Hkeys as [[? H]|[? H]]; congruence.
      * split; [done|]. split; [done|].
        by intros data' [= <-] _ _.
    + by repeat split.
Qed.

Lemma endpoint_contract_witness :
  ∃ req, ∀ (srv : server) (w : log),
    (gen_next srv (Databases.query (databases notion) "db" ∅) w).2 = w ++ [req]
    ∧ (gen_next srv (Databases.query (databases notion) "db" ∅) w).1.1 ≠ StopIteration
    ∧ ∀ data, decode (srv w req) = Ok data →
        g_payload (Databases.query (databases notion) "db" ∅) !! "fn" = None →
        g_payload (Databases.query (databases notion) "db" ∅) !! "data" = None →
        (gen_next srv (Databases.query (databases notion) "db" ∅) w).1.1
        = Yield (VJson data).
Proof.
  apply (proj2 (endpoint_contract notion) (Databases.query (databases notion) "db" ∅)).
  reflexivity.
Defined.

(** ** Pagination through a list operation *)

(** Calling the generator function again, as [paginate] does. *)
Lemma call_method_again (self : endpoint) (call : invocation) (kwargs : dict) :
  kwargs !! "self" = None →
  match call with
  | CallWithId m _ => kwargs !! id_param m = None
  | CallPlain _ => True
  end →
  call_method (method_of call) self (positional call) kwargs
  = Ok (Generator self call kwargs Created).
Proof.
  intros Hself Hid. unfold call_method.
  case_bool_decide as H; [destruct H; congruence|].
  destruct call as [m id|m]; simpl; [|done].
  case_bool_decide as H'; [destruct H'; congruence|done].
Qed.

(** Every list operation, on every server: when the first page has
    more and names a cursor, the second and last element of the sequence
    is a generator object, and the first request is the only one sent. *)
Lemma second_element_is_generator (g : generator) :
  g_state g = Created → plain_payload (g_call g) (g_payload g) →
  ∃ req, ∀ (srv : server) (w : log) (data has_more cursor : json) (fuel : nat),
    decode (srv w req) = Ok data →
    subscript data "has_more" = Ok has_more → truthy has_more = true →
    subscript data "next_cursor" = Ok cursor →
    ∃ g', collect (gen_next srv) (3 + fuel) g w
          = ([VJson data;
              VGen (Generator (g_self g) (g_call g)
                      (<["start_cursor" := cursor]> (g_payload g)) Created)],
             Exhausted, g', w ++ [req]).
Proof.
  intros Hst (Hself & Hfn & Hdata & Hid).
  destruct (gen_next_created g Hst) as [req Hreq].
  exists req. intros srv w data hm c fuel Hdec Hhm Ht Hc.
  change (3 + fuel) with (S (S (S fuel))). cbn [collect].
  rewrite Hreq, Hdec. unfold call_paginate.
  case_bool_decide as Hkeys; [destruct Hkeys as [[? H]|[? H]]; congruence|].
  unfold gen_next, delegate. cbn [g_state in_state g_call g_self].
  rewrite (next_second_fetch _ _ _ _ _ _ _ Hhm Ht Hc). cbn zeta.
  unfold bound_method. rewrite call_method_again; cycle 1.
  { by rewrite lookup_insert_ne. }
  { destruct (g_call g) as [[] id|m]; [..|done]; by rewrite lookup_insert_ne. }
  cbn [g_state in_state g_call g_self]. rewrite next_third.
  by eexists.
Qed.

(** C1. [Databases.query] against a server with two pages, the first
    with [has_more] true and cursor ["X"]: the loop over the generator
    ends after two elements and one request. The first element is the
    first page; the second is not the second page but a generator object,
    the result of calling [self.query] with [start_cursor] set, not yet
    started. The loop of the tests raises [TypeError] on it. Against a
    server with three pages and a callable that returns a page, the
    generator of [paginate] ends after two pages. *)
Theorem query_second_element_is_generator :
  let payload : dict := {[ "page_size" := JNum 1 ]} in
  let g := Databases.query (databases notion) "db" payload in
  let run := collect (gen_next two_pages) 5 g [] in
  yielded run
  = [VJson page1;
     VGen (Databases.query (databases notion) "db"
             (<["start_cursor" := JStr "X"]> payload))]
  ∧ ended run = Exhausted
  ∧ state_after run
    = [wire notion "POST" "databases/db/query" (json_kw payload)]
  ∧ count_results 5 two_pages g [] 0
    = (Some (Raise (TypeError "'generator' object is not subscriptable")),
       [wire notion "POST" "databases/db/query" (json_kw payload)])
  ∧ yielded (collect (next VJson (bound_retrieve three_pages (databases notion))) 5
               (paginate page1 ["db"] payload) [])
    = [VJson page1; VJson page2_more].
Proof.
  intros payload g run. subst run g payload.
  split; [by vm_compute|]. split; [by vm_compute|]. split; [by vm_compute|].
  split; by vm_compute.
Qed.

(** ** Determinism *)

(** C8. Two generators made from the same first page and the same
    arguments, each with a callable of its own working on a state of its
    own: when the two callables return the same for the same arguments,
    the two loops yield the same elements and end the same way. *)
Theorem paginate_is_deterministic {A W1 W2 : Type}
    (fn1 : A → dict → W1 → result value * W1)
    (fn2 : A → dict → W2 → result value * W2) :
  (∀ args kwargs w1 w2, (fn1 args kwargs w1).1 = (fn2 args kwargs w2).1) →
  ∀ (data : json) (args : A) (kwargs : dict) (w1 : W1) (w2 : W2) (fuel : nat),
    yielded (collect (next VJson fn1) fuel (paginate data args kwargs) w1)
    = yielded (collect (next VJson fn2) fuel (paginate data args kwargs) w2)
    ∧ ended (collect (next VJson fn1) fuel (paginate data args kwargs) w1)
      = ended (collect (next VJson fn2) fuel (paginate data args kwargs) w2).
Proof.
  intros Hsame data args kwargs w1 w2 fuel.
  destruct fuel as [|fuel]; [done|].
  rewrite !collect_first.
  destruct fuel as [|fuel]; [done|].
  cbn [collect].
  destruct (next_second_cases fn1 data args kwargs w1)
    as [e He|hm Hhm Ht|hm e Hhm Ht Hc|hm c v s Hhm Ht Hc Hf|hm c e s Hhm Ht Hc Hf].
  - by rewrite (next_second_lookup_error fn2 _ _ _ _ _ He).
  - by rewrite (next_second_done fn2 _ _ _ _ _ Hhm Ht).
  - by rewrite (next_second_cursor_error fn2 _ _ _ _ _ _ Hhm Ht Hc).
  - rewrite (next_second_fetch fn2 _ _ _ _ _ _ Hhm Ht Hc). cbn zeta.
    specialize (Hsame args (<["start_cursor" := c]> kwargs) w1 w2).
    rewrite Hf in Hsame. simpl in Hsame.
    destruct (fn2 args _ w2) as [r2 s2]. simpl in Hsame. subst r2.
    destruct fuel as [|fuel]; [done|].
    by rewrite !collect_after_second.
  - rewrite (next_second_fetch fn2 _ _ _ _ _ _ Hhm Ht Hc). cbn zeta.
    specialize (Hsame args (<["start_cursor" := c]> kwargs) w1 w2).
    rewrite Hf in Hsame. simpl in Hsame.
    destruct (fn2 args _ w2) as [r2 s2]. simpl in Hsame. by subst r2.
Qed.

(** The same callable, bare and under a spy with a state of its own. *)
Lemma paginate_is_deterministic_witness :
  yielded (collect (next VJson (bound_retrieve (λ _, two_pages []) (databases notion))) 3
             (paginate page1 ["db"] ∅) [])
  = yielded (collect (next VJson (spy (bound_retrieve (λ _, two_pages []) (databases notion)))) 3
               (paginate page1 ["db"] ∅) ([], []))
  ∧ ended (collect (next VJson (bound_retrieve (λ _, two_pages []) (databases notion))) 3
             (paginate page1 ["db"] ∅) [])
    = ended (collect (next VJson (spy (bound_retrieve (λ _, two_pages []) (databases notion)))) 3
               (paginate page1 ["db"] ∅) ([], [])).
Proof.
  apply (paginate_is_deterministic
           (bound_retrieve (λ _, two_pages []) (databases notion))
           (spy (bound_retrieve (λ _, two_pages []) (databases notion)))).
  intros args kwargs w1 [w2 calls]. unfold spy. simpl.
  destruct args as [|id [|]]; try reflexivity.
  rewrite !bound_retrieve_run. simpl.
  by destruct (decode _).
Defined.

(** ** The keyword arguments of the generator *)

Section Kwargs.
Context {A W : Type}.
Variable fn : A → dict → W → result value * W.
Variables (data : json) (args : A) (kwargs : dict).

Local Abbreviation frame_inv := (frame_inv data args kwargs).

Lemma frame_inv_call : frame_inv (paginate data args kwargs).
Proof. repeat split. by exists kwargs. Qed.

Lemma frame_inv_next (g : frame A) (w : W) :
  frame_inv g → frame_inv (next VJson fn g w).1.2.
Proof.
  intros (Hd & Ha & kw & Hkw & Hpc).
  destruct g as [d a k p]. simpl in *. subst d a k.
  unfold next. simpl. destruct p; simpl.
  - repeat split. exists kw. split; [done|]. intros _. apply Hpc. by left.
  - destruct (subscript data "has_more") as [hm|e]; simpl.
    + destruct (truthy hm); simpl.
      * destruct (subscript data "next_cursor") as [c|e]; simpl.
        -- destruct (fn args _ w) as [[v|e] w']; simpl;
             (repeat split; eexists; split; [done|]; by intros [|]).
        -- repeat split. exists kw. split; [done|]. by intros [|].
      * repeat split. exists kw. split; [done|]. by intros [|].
    + repeat split. exists kw. split; [done|]. by intros [|].
  - repeat split. exists kw. split; [done|]. by intros [|].
  - repeat split. exists kw. split; [done|]. by intros [|].
Qed.

Lemma reachable_inv (g : frame A) :
  reachable fn data args kwargs g → frame_inv g.
Proof.
  induction 1 as [|g w _ IH]; [apply frame_inv_call|by apply frame_inv_next].
Qed.
End Kwargs.

(** C10. In every frame a generator made by a call of [paginate] can
    reach, the local [kwargs] is a dict and not [None], so the cursor is
    always written by the first arm of [if kwargs is not None]. A pull
    either runs [fn] not at all, or runs it once with the positional
    arguments of the call and the collected keyword arguments with
    [start_cursor] set to [data['next_cursor']]. *)
Theorem kwargs_is_never_none {A W : Type}
    (fn : A → dict → W → result value * W)
    (data : json) (args : A) (kwargs : dict) (g : frame A) :
  reachable (spy fn) data args kwargs g →
  (∃ kw, f_kwargs g = Some kw
         ∧ ∀ cursor, inject_cursor (f_kwargs g) cursor = <["start_cursor" := cursor]> kw)
  ∧ ∀ (w : W) (calls : list (A * dict)),
      (next VJson (spy fn) g (w, calls)).2.2 = calls
      ∨ ∃ cursor, subscript data "next_cursor" = Ok cursor
          ∧ (next VJson (spy fn) g (w, calls)).2.2
            = calls ++ [(args, <["start_cursor" := cursor]> kwargs)].
Proof.
  intros Hreach.
  destruct (reachable_inv _ _ _ _ _ Hreach) as (Hd & Ha & kw & Hkw & Hpc).
  split.
  - exists kw. split; [done|]. intros cursor. by rewrite Hkw.
  - intros w calls. destruct g as [d a k p]. simpl in *. subst d a k.
    unfold next. simpl. destruct p; simpl; try by left.
    destruct (subscript data "has_more") as [hm|e]; simpl; [|by left].
    destruct (truthy hm); simpl; [|by left].
    destruct (subscript data "next_cursor") as [c|e]; simpl; [|by left].
    rewrite (Hpc (or_intror eq_refl)).
    right. exists c. split; [done|].
    destruct (spy fn args _ (w, calls)) as [r s] eqn:Hspy.
    apply spy_fetch in Hspy as [-> ->].
    by destruct (fn args _ w).1.
Qed.

Lemma kwargs_is_never_none_witness :
  (∃ kw, f_kwargs (at_pc AtYield1 (paginate page1 ["db"] (∅ : dict))) = Some kw
         ∧ ∀ cursor,
             inject_cursor (f_kwargs (at_pc AtYield1 (paginate page1 ["db"] (∅ : dict)))) cursor
             = <["start_cursor" := cursor]> kw)
  ∧ ∀ (w : log) (calls : list (list string * dict)),
      (next VJson (spy (bound_retrieve two_pages (databases notion)))
         (at_pc AtYield1 (paginate page1 ["db"] ∅)) (w, calls)).2.2 = calls
      ∨ ∃ cursor, subscript page1 "next_cursor" = Ok cursor
          ∧ (next VJson (spy (bound_retrieve two_pages (databases notion)))
               (at_pc AtYield1 (paginate page1 ["db"] ∅)) (w, calls)).2.2
            = calls ++ [(["db"], <["start_cursor" := cursor]> ∅)].
Proof.
  apply (kwargs_is_never_none (bound_retrieve two_pages (databases notion))
           page1 ["db"] ∅ (at_pc AtYield1 (paginate page1 ["db"] ∅))).
  apply (ReachNext (spy (bound_retrieve two_pages (databases notion)))
           page1 ["db"] ∅ (paginate page1 ["db"] ∅) ([], [])).
  apply ReachCall.
Defined.

(** * Further properties of the code *)

(** ** What goes on the wire *)

Lemma run_single_route (c : client) (call : single_call) (srv : server) (w : log) :
  run_single c call srv w
  = (decode (srv w (wire c (single_route call).1.1 (single_route call).1.2
                      (single_route call).2)),
     w ++ [wire c (single_route call).1.1 (single_route call).1.2
             (single_route call).2]).
Proof.
  destruct call; unfold run_single;
    unfold Databases.create, Databases.update, Databases.retrieve,
      Pages.retrieve, Pages.create, Pages.update,
      Blocks.retrieve, Blocks.update, Blocks.delete,
      Users.retrieve, Users.me, _get, _post, _patch, _delete;
    (rewrite request_json_run;
       [reflexivity | first [apply json_kw_passable | apply empty_passable]]).
Qed.

Lemma first_request_route (c : client) (call : invocation) (payload : dict)
    (st : gstate) (srv : server) (w : log) :
  first_request (Generator (endpoint_of c call) call payload st) srv w
  = (checked (srv w (wire c (generator_route call).1 (generator_route call).2
                       (json_kw payload))),
     w ++ [wire c (generator_route call).1 (generator_route call).2
             (json_kw payload)]).
Proof.
  destruct call as [[] id|[]]; unfold first_request; cbn [g_call g_self g_payload];
    unfold Databases.query_request, Databases.list_request,
      BlocksChildren.list_request, BlocksChildren.append_request,
      Users.list_request, Search.__call___request, _get, _post;
    (rewrite request_run; [reflexivity | apply json_kw_passable]).
Qed.

(** X1. Each method that is not a generator function sends exactly the
    request of its row in [single_route]: [retrieve] is a GET, [create] a
    POST, [update] a PATCH and [delete] a DELETE on the lower-cased class
    name (followed by the id, when there is one), with the payload
    unchanged under [json]; [me] is a GET on ["users/me"] without
    keyword arguments. What it returns is the decoded answer to that
    request. *)
Theorem single_methods_requests (c : client) (call : single_call)
    (srv : server) (w : log) :
  let req := wire c (single_route call).1.1 (single_route call).1.2
               (single_route call).2 in
  (run_single c call srv w).2 = w ++ [req]
  ∧ (run_single c call srv w).1 = decode (srv w req)
  ∧ req_url req = _url_prefix c +:+ "/" +:+ (single_route call).1.2.
Proof. intros req. subst req. by rewrite run_single_route. Qed.

(** X2. The first pull on the generator of a list operation sends
    exactly one request: a POST on ["databases/<id>/query"] for
    [databases.query], a GET on ["databases"], ["users"] for the [list]
    methods, a POST on ["search"] for [search], and a GET (or, for
    [append], a PATCH) on ["blocks/<id>/children"] for the children of a
    block, whatever the name of the class; the payload goes unchanged
    under [json]. *)
Theorem list_operations_first_request (c : client) (call : invocation)
    (payload : dict) (srv : server) (w : log) :
  (gen_next srv (client_generator c call payload) w).2
  = w ++ [wire c (generator_route call).1 (generator_route call).2 (json_kw payload)].
Proof.
  unfold gen_next, client_generator. cbn [g_state].
  unfold mbind, M_bind. rewrite first_request_route.
  destruct (checked _) as [r|e]; [|done]. unfold lift.
  destruct (Response_json r) as [data|e]; [|done].
  unfold call_paginate. cbn [g_call g_payload]. case_bool_decide; [done|].
  unfold delegate. by rewrite next_first.
Qed.

(** X3. With a client made by [Client(auth, notion_version,
    api_version)], every request of a method or of the first pull of a
    list operation carries exactly three headers: [Authorization] with
    ["Bearer "] before the token, [Notion-Version] and [Content-Type];
    and its url lies below ["https://api.notion.com/<api_version>/"]. *)
Theorem every_request_carries_headers (auth notion_version api_version : string) :
  let c := Client_init auth notion_version api_version in
  let carries (req : http_request) :=
    req_headers req !! "Authorization" = Some ("Bearer " +:+ auth)
    ∧ req_headers req !! "Notion-Version" = Some notion_version
    ∧ req_headers req !! "Content-Type" = Some "application/json"
    ∧ size (req_headers req) = 3
    ∧ ∃ path, req_url req = "https://api.notion.com/" +:+ api_version +:+ "/" +:+ path in
  (∀ (call : single_call) (srv : server) (w : log),
     ∃ req, (run_single c call srv w).2 = w ++ [req] ∧ carries req)
  ∧ (∀ (call : invocation) (payload : dict) (srv : server) (w : log),
     ∃ req, (gen_next srv (client_generator c call payload) w).2 = w ++ [req]
            ∧ carries req).
Proof.
  intros c carries.
  assert (Hwire : ∀ verb path kw, carries (wire c verb path kw)).
  { intros verb path kw. unfold carries, wire, c, Client_init.
    cbn [req_headers req_url _headers _url_prefix].
    split; [done|]. split; [done|]. split; [done|]. split; [done|].
    by exists path. }
  split.
  - intros call srv w. eexists. split; [by rewrite run_single_route|apply Hwire].
  - intros call payload srv w. eexists. split; [|apply Hwire].
    unfold gen_next, client_generator. cbn [g_state].
    unfold mbind, M_bind. rewrite first_request_route.
    destruct (checked _) as [r|e]; [|done]. unfold lift.
    destruct (Response_json r) as [data|e]; [|done].
    unfold call_paginate. cbn [g_call g_payload]. case_bool_decide; [done|].
    unfold delegate. by rewrite next_first.
Qed.

(** ** Bounds and edges of the paginate generator *)

Local Ltac no_call := exists []; rewrite app_nil_r; split; [done|simpl; lia].
Local Ltac one_call := eexists [_]; split; [done|simpl; lia].

(** X4. Whatever the page, the callable and the number of pulls: the
    generator of [paginate] yields at most two elements, the first of
    them the page it was given, calls [fn] at most once, and is over
    after three pulls at the latest. *)
Theorem paginate_yields_at_most_two {A W : Type}
    (fn : A → dict → W → result value * W)
    (data : json) (args : A) (kwargs : dict) (w : W) (calls : list (A * dict))
    (fuel : nat) :
  let run := collect (next VJson (spy fn)) fuel (paginate data args kwargs) (w, calls) in
  length (yielded run) ≤ 2
  ∧ (∀ v, head (yielded run) = Some v → v = VJson data)
  ∧ (∃ made, (state_after run).2 = calls ++ made ∧ length made ≤ 1)
  ∧ (3 ≤ fuel → ended run = Exhausted ∨ ∃ e, ended run = Raised e).
Proof.
  intros run. subst run.
  destruct fuel as [|fuel].
  { cbn. split; [lia|]. split; [intros v; discriminate|].
    split; [|intros; lia]. no_call. }
  rewrite collect_first.
  destruct fuel as [|fuel].
  { cbn. split; [lia|]. split; [by intros v [= <-]|].
    split; [|intros; lia]. no_call. }
  cbn [collect].
  destruct (next_second_cases (spy fn) data args kwargs (w, calls))
    as [e He|hm Hhm Ht|hm e Hhm Ht Hc|hm c v s Hhm Ht Hc Hf|hm c e s Hhm Ht Hc Hf].
  - cbn. split; [lia|]. split; [by intros v [= <-]|].
    split; [no_call|]. intros _. right. by eexists.
  - cbn. split; [lia|]. split; [by intros v [= <-]|].
    split; [no_call|]. intros _. by left.
  - cbn. split; [lia|]. split; [by intros v [= <-]|].
    split; [no_call|]. intros _. right. by eexists.
  - apply spy_fetch in Hf as [_ ->].
    destruct fuel as [|fuel].
    + cbn. split; [lia|]. split; [by intros v' [= <-]|].
      split; [one_call|intros; lia].
    + rewrite collect_after_second. cbn. split; [lia|].
      split; [by intros v' [= <-]|]. split; [one_call|]. intros _. by left.
  - apply spy_fetch in Hf as [_ ->].
    cbn. split; [lia|]. split; [by intros v [= <-]|].
    split; [one_call|]. intros _. right. by eexists.
Qed.

(** X5. [if data['has_more']] tests truth, not equality with [True]:
    a page whose [has_more] is any false value ([False], [None], [0],
    an empty string, list or dict) ends the sequence after that page,
    without a call of [fn] and without a look at [next_cursor]. *)
Theorem falsy_has_more_ends_sequence {A W : Type}
    (fn : A → dict → W → result value * W)
    (data has_more : json) (args : A) (kwargs : dict) (w : W)
    (calls : list (A * dict)) (fuel : nat) :
  subscript data "has_more" = Ok has_more → truthy has_more = false →
  collect (next VJson (spy fn)) (2 + fuel) (paginate data args kwargs) (w, calls)
  = ([VJson data], Exhausted, at_pc Returned (paginate data args kwargs), (w, calls)).
Proof.
  intros Hhm Ht. change (2 + fuel) with (S (S fuel)).
  rewrite collect_first. cbn [collect].
  by rewrite (next_second_done _ _ _ _ _ _ Hhm Ht).
Qed.

Lemma falsy_has_more_ends_sequence_witness :
  collect (next VJson (spy (bound_retrieve two_pages (databases notion)))) 2
    (paginate (JDict {[ "has_more" := JNull; "next_cursor" := JStr "X" ]}) ["db"] ∅)
    ([], [])
  = ([VJson (JDict {[ "has_more" := JNull; "next_cursor" := JStr "X" ]})], Exhausted,
     at_pc Returned
       (paginate (JDict {[ "has_more" := JNull; "next_cursor" := JStr "X" ]}) ["db"] ∅),
     ([], [])).
Proof.
  apply (falsy_has_more_ends_sequence (bound_retrieve two_pages (databases notion))
           (JDict {[ "has_more" := JNull; "next_cursor" := JStr "X" ]}) JNull
           ["db"] ∅ [] [] 0); reflexivity.
Defined.

(** X6. A page that says there is more but has no key [next_cursor]:
    the page is yielded, the next pull raises [KeyError('next_cursor')],
    [fn] is not called and the keyword arguments are left as collected. *)
Theorem missing_next_cursor_raises {A W : Type}
    (fn : A → dict → W → result value * W)
    (m : dict) (has_more : json) (args : A) (kwargs : dict) (w : W)
    (calls : list (A * dict)) (fuel : nat) :
  m !! "has_more" = Some has_more → truthy has_more = true →
  m !! "next_cursor" = None →
  collect (next VJson (spy fn)) (2 + fuel) (paginate (JDict m) args kwargs) (w, calls)
  = ([VJson (JDict m)], Raised (KeyError "next_cursor"),
     at_pc Returned (paginate (JDict m) args kwargs), (w, calls)).
Proof.
  intros Hhm Ht Hc. change (2 + fuel) with (S (S fuel)).
  rewrite collect_first. cbn [collect].
  rewrite (next_second_cursor_error _ _ _ _ _ has_more (KeyError "next_cursor")); try done.
  - simpl. by rewrite Hhm.
  - simpl. by rewrite Hc.
Qed.

Lemma missing_next_cursor_raises_witness :
  collect (next VJson (spy (bound_retrieve two_pages (databases notion)))) 2
    (paginate (JDict {[ "has_more" := JBool true ]}) ["db"] ∅) ([], [])
  = ([VJson (JDict {[ "has_more" := JBool true ]})], Raised (KeyError "next_cursor"),
     at_pc Returned (paginate (JDict {[ "has_more" := JBool true ]}) ["db"] ∅),
     ([], [])).
Proof.
  apply (missing_next_cursor_raises (bound_retrieve two_pages (databases notion))
           {[ "has_more" := JBool true ]} (JBool true) ["db"] ∅ [] [] 0); reflexivity.
Defined.

(** X7. Data that is not a mapping (a JSON list, string, number,
    boolean or null, all of which [r.json()] can return): it is yielded
    as the first element all the same, and the next pull raises
    [TypeError] from [data['has_more']]; [fn] is not called. *)
Theorem non_mapping_page_raises {A W : Type}
    (fn : A → dict → W → result value * W)
    (data : json) (args : A) (kwargs : dict) (w : W)
    (calls : list (A * dict)) (fuel : nat) :
  (∀ m, data ≠ JDict m) →
  ∃ msg,
    collect (next VJson (spy fn)) (2 + fuel) (paginate data args kwargs) (w, calls)
    = ([VJson data], Raised (TypeError msg),
       at_pc Returned (paginate data args kwargs), (w, calls)).
Proof.
  intros Hnot. change (2 + fuel) with (S (S fuel)).
  assert (∃ msg, subscript data "has_more" = Raise (TypeError msg)) as [msg Hs].
  { destruct data; try by eexists. by destruct (Hnot m). }
  exists msg. rewrite collect_first. cbn [collect].
  by rewrite (next_second_lookup_error _ _ _ _ _ _ Hs).
Qed.

Lemma non_mapping_page_raises_witness :
  ∃ msg,
    collect (next VJson (spy (bound_retrieve two_pages (databases notion)))) 2
      (paginate (JList [JStr "a"]) ["db"] ∅) ([], [])
    = ([VJson (JList [JStr "a"])], Raised (TypeError msg),
       at_pc Returned (paginate (JList [JStr "a"]) ["db"] ∅), ([], [])).
Proof.
  apply (non_mapping_page_raises (bound_retrieve two_pages (databases notion))
           (JList [JStr "a"]) ["db"] ∅ [] [] 0).
  intros m. discriminate.
Defined.

(** ** Failures of the transport and of decoding *)

Lemma checked_passes (r : response) :
  passes_status r → checked (Answered r) = Ok r.
Proof.
  intros H. unfold checked, raise_for_status.
  destruct (Z.leb_spec 400 (status_code r)); [|done].
  destruct (Z.ltb_spec (status_code r) 600); [|done].
  destruct H; lia.
Qed.

(** The first pull on the generator of a list operation, with its
    request spelled out. *)
Lemma client_generator_first_pull (c : client) (call : invocation) (payload : dict)
    (srv : server) (w : log) :
  let g := client_generator c call payload in
  let req := wire c (generator_route call).1 (generator_route call).2 (json_kw payload) in
  gen_next srv g w
  = match decode (srv w req) with
    | Raise e => (Throw e, in_state Finished g, w ++ [req])
    | Ok data =>
        match call_paginate data (positional call) payload with
        | Raise e => (Throw e, in_state Finished g, w ++ [req])
        | Ok inner =>
            (Yield (VJson data), in_state (Delegating (at_pc AtYield1 inner)) g,
             w ++ [req])
        end
    end.
Proof.
  intros g req. subst g req. unfold gen_next, client_generator. cbn [g_state].
  unfold mbind, M_bind. rewrite first_request_route. unfold decode, lift.
  destruct (checked _) as [r|e]; [|done].
  destruct (Response_json r) as [data|e]; [|done].
  cbn [g_call g_payload].
  destruct (call_paginate _ _ _) as [inner|e] eqn:Hcall; [|done].
  unfold call_paginate in Hcall. case_bool_decide; [done|].
  by injection Hcall as <-.
Qed.

(** X8. [Client.request] with a keyword argument named [headers], [url]
    or [method]: the call of [requests.request] raises [TypeError] for
    the doubled argument, nothing is sent, and code after the request
    does not run. *)
Theorem colliding_kwargs_send_nothing (self : client) (method endpoint : string)
    (kwargs : dict) (srv : server) (w : log) :
  is_Some (kwargs !! "headers") ∨ is_Some (kwargs !! "url")
    ∨ is_Some (kwargs !! "method") →
  ∃ msg,
    request self method endpoint kwargs srv w = (Raise (TypeError msg), w)
    ∧ ∀ (B : Type) (k : response → M B),
        (r ← request self method endpoint kwargs; k r) srv w
        = (Raise (TypeError msg), w).
Proof.
  intros Hkeys.
  destruct (request_collision self method endpoint kwargs srv w) as [msg Hmsg].
  { intros (Hm & Hu & Hh).
    destruct Hkeys as [[? H]|[[? H]|[? H]]]; congruence. }
  exists msg. split; [done|]. intros B k. unfold mbind, M_bind. by rewrite Hmsg.
Qed.

Lemma colliding_kwargs_send_nothing_witness :
  ∃ msg,
    request notion "GET" "users" {[ "headers" := JDict ∅ ]} two_pages []
    = (Raise (TypeError msg), [])
    ∧ ∀ (B : Type) (k : response → M B),
        (r ← request notion "GET" "users" {[ "headers" := JDict ∅ ]}; k r) two_pages []
        = (Raise (TypeError msg), []).
Proof.
  apply (colliding_kwargs_send_nothing notion "GET" "users"
           {[ "headers" := JDict ∅ ]} two_pages []).
  left. by eexists.
Defined.

(** X9. When [requests.request] itself raises (no connection, a
    timeout, ...): every method that is not a generator function raises
    that exception after its one attempt, and the first pull of every
    list operation raises it without yielding; there is no second
    attempt, no status check and no decoding. *)
Theorem transport_failure_propagates (c : client) (srv : server) (w : log) (e : exn) :
  (∀ (call : single_call),
     let req := wire c (single_route call).1.1 (single_route call).1.2
                  (single_route call).2 in
     srv w req = Failed e →
     run_single c call srv w = (Raise e, w ++ [req]))
  ∧ (∀ (call : invocation) (payload : dict) (fuel : nat),
     let req := wire c (generator_route call).1 (generator_route call).2
                  (json_kw payload) in
     srv w req = Failed e →
     collect (gen_next srv) (1 + fuel) (client_generator c call payload) w
     = ([], Raised e, in_state Finished (client_generator c call payload), w ++ [req])).
Proof.
  split.
  - intros call req Hsrv. subst req. by rewrite run_single_route, Hsrv.
  - intros call payload fuel req Hsrv. subst req.
    change (1 + fuel) with (S fuel). cbn [collect].
    rewrite client_generator_first_pull. cbn zeta. by rewrite Hsrv.
Qed.

Lemma transport_failure_propagates_witness :
  run_single notion UsersMe (λ _ _, Failed (RequestException "connection refused")) []
  = (Raise (RequestException "connection refused"), [] ++ [wire notion "GET" "users/me" ∅]).
Proof.
  apply (proj1 (transport_failure_propagates notion
                  (λ _ _, Failed (RequestException "connection refused")) []
                  (RequestException "connection refused")) UsersMe).
  reflexivity.
Defined.

(** X10. An answer whose status passes but whose body is no JSON
    document: every method that is not a generator function raises
    [JSONDecodeError] after its one request, and the first pull of every
    list operation raises it without yielding. *)
Theorem malformed_body_raises (c : client) (srv : server) (w : log) (r : response) :
  passes_status r → body r = None →
  (∀ (call : single_call),
     let req := wire c (single_route call).1.1 (single_route call).1.2
                  (single_route call).2 in
     srv w req = Answered r →
     run_single c call srv w = (Raise JSONDecodeError, w ++ [req]))
  ∧ (∀ (call : invocation) (payload : dict) (fuel : nat),
     let req := wire c (generator_route call).1 (generator_route call).2
                  (json_kw payload) in
     srv w req = Answered r →
     collect (gen_next srv) (1 + fuel) (client_generator c call payload) w
     = ([], Raised JSONDecodeError,
        in_state Finished (client_generator c call payload), w ++ [req])).
Proof.
  intros Hst Hbody.
  assert (Hdec : decode (Answered r) = Raise JSONDecodeError).
  { unfold decode. rewrite checked_passes by done. unfold Response_json. by rewrite Hbody. }
  split.
  - intros call req Hsrv. subst req. by rewrite run_single_route, Hsrv, Hdec.
  - intros call payload fuel req Hsrv. subst req.
    change (1 + fuel) with (S fuel). cbn [collect].
    rewrite client_generator_first_pull. cbn zeta. by rewrite Hsrv, Hdec.
Qed.

Lemma malformed_body_raises_witness :
  run_single notion UsersMe (λ _ _, Answered (Response 200 None)) []
  = (Raise JSONDecodeError, [] ++ [wire notion "GET" "users/me" ∅]).
Proof.
  apply (proj1 (malformed_body_raises notion (λ _ _, Answered (Response 200 None)) []
                  (Response 200 None) ltac:(left; simpl; lia) eq_refl) UsersMe).
  reflexivity.
Defined.

(** X11. The status check rejects 400 to 599 and nothing else: for any
    other status ([200], but also [304] or [100]) [Client.request]
    returns the response as it came, after its one request, and a method
    that is not a generator function returns whatever its body decodes
    to. *)
Theorem other_status_returns_response (self : client) (method endpoint : string)
    (kwargs : dict) (srv : server) (w : log) (r : response) :
  passable kwargs →
  srv w (wire self method endpoint kwargs) = Answered r →
  passes_status r →
  request self method endpoint kwargs srv w
  = (Ok r, w ++ [wire self method endpoint kwargs])
  ∧ (r' ← request self method endpoint kwargs; lift (Response_json r')) srv w
    = (Response_json r, w ++ [wire self method endpoint kwargs]).
Proof.
  intros Hkw Hsrv Hst. split.
  - by rewrite request_run, Hsrv, checked_passes.
  - rewrite request_json_run by done. unfold decode.
    by rewrite Hsrv, checked_passes.
Qed.

Lemma other_status_returns_response_witness :
  request notion "GET" "users/me" ∅ (λ _ _, Answered (Response 304 None)) []
  = (Ok (Response 304 None), [] ++ [wire notion "GET" "users/me" ∅])
  ∧ (r' ← request notion "GET" "users/me" ∅; lift (Response_json r'))
      (λ _ _, Answered (Response 304 None)) []
    = (Response_json (Response 304 None), [] ++ [wire notion "GET" "users/me" ∅]).
Proof.
  apply (other_status_returns_response notion "GET" "users/me" ∅
           (λ _ _, Answered (Response 304 None)) [] (Response 304 None)).
  - by repeat split.
  - reflexivity.
  - left. simpl. lia.
Defined.

(** ** Whole loops over a list operation *)

(** Calling a generator function sends nothing. *)
Lemma bound_method_state (m : method) (self : endpoint) (args : list string)
    (kwargs : dict) (w : log) :
  (bound_method m self args kwargs w).2 = w.
Proof. unfold bound_method. by destruct (call_method _ _ _ _). Qed.

(** A pull that does not yield leaves the generator over. *)
Lemma gen_next_over (srv : server) (g : generator) (w : log) :
  (∀ v, (gen_next srv g w).1.1 ≠ Yield v) →
  g_state (gen_next srv g w).1.2 = Finished.
Proof.
  unfold gen_next. destruct (g_state g) as [|inner|] eqn:Hst.
  - destruct ((first_request g ≫= _) srv w) as [[data|e] w']; [|done].
    destruct (call_paginate _ _ _) as [inner|e]; [|done].
    unfold delegate.
    destruct (next _ _ inner w') as [[[v| |e] inner'] w'']; try done.
    intros H. by destruct (H v).
  - unfold delegate.
    destruct (next _ _ inner w) as [[[v| |e] inner'] w']; try done.
    intros H. by destruct (H v).
  - done.
Qed.

(** X12. Generators of the endpoint layer are single-pass: once a loop
    over one has ended, by exhaustion or by an exception, the generator
    is over for good; every later pull, on any server, gives
    [StopIteration] and sends nothing. *)
Theorem generator_is_single_pass (srv : server) (fuel : nat) :
  ∀ (g : generator) (w : log),
    ended (collect (gen_next srv) fuel g w) ≠ Pending →
    ∀ (srv' : server) (w' : log),
      gen_next srv' (generator_after (collect (gen_next srv) fuel g w)) w'
      = (StopIteration, generator_after (collect (gen_next srv) fuel g w), w').
Proof.
  induction fuel as [|fuel IH]; intros g w Hend srv' w'; [done|].
  cbn [collect] in Hend |- *.
  pose proof (gen_next_over srv g w) as Hover.
  destruct (gen_next srv g w) as [[[v| |e] g1] w1] eqn:Hpull.
  - specialize (IH g1 w1).
    destruct (collect (gen_next srv) fuel g1 w1) as [[[vs e'] g2] w2].
    by apply IH.
  - cbn in Hover |- *. unfold gen_next. by rewrite Hover.
  - cbn in Hover |- *. unfold gen_next. by rewrite Hover.
Qed.

Lemma generator_is_single_pass_witness :
  gen_next three_pages
    (generator_after
       (collect (gen_next two_pages) 3 (Databases.query (databases notion) "db" ∅) []))
    []
  = (StopIteration,
     generator_after
       (collect (gen_next two_pages) 3 (Databases.query (databases notion) "db" ∅) []),
     []).
Proof.
  apply (generator_is_single_pass two_pages 3
           (Databases.query (databases notion) "db" ∅) []).
  by vm_compute.
Defined.

(** X13. A whole loop over the generator of a list operation, whatever
    the server answers and however long the loop goes on: exactly one
    request is sent, the first one; at most two elements are yielded;
    and three pulls end the loop. *)
Theorem list_operation_sends_one_request (c : client) (call : invocation)
    (payload : dict) (srv : server) (w : log) (fuel : nat) :
  let run := collect (gen_next srv) (1 + fuel) (client_generator c call payload) w in
  state_after run
  = w ++ [wire c (generator_route call).1 (generator_route call).2 (json_kw payload)]
  ∧ length (yielded run) ≤ 2
  ∧ (2 ≤ fuel → ended run = Exhausted ∨ ∃ e, ended run = Raised e).
Proof.
  intros run.
  assert (∃ items e g',
            run = (items, e, g',
                   w ++ [wire c (generator_route call).1 (generator_route call).2
                           (json_kw payload)])
            ∧ length items ≤ 2
            ∧ (2 ≤ fuel → e = Exhausted ∨ ∃ x, e = Raised x)) as H.
  2:{ destruct H as (items & e & g' & -> & Hlen & Hend). by repeat split. }
  subst run. change (1 + fuel) with (S fuel). cbn [collect].
  rewrite client_generator_first_pull. cbn zeta.
  destruct (decode _) as [data|e].
  2:{ eexists _, _, _. split; [done|]. split; [simpl; lia|]. intros _. right. by eexists. }
  unfold call_paginate. case_bool_decide.
  { eexists _, _, _. split; [done|]. split; [simpl; lia|]. intros _. right. by eexists. }
  destruct fuel as [|fuel].
  { eexists _, _, _. split; [done|]. split; [simpl; lia|]. intros; lia. }
  cbn [collect]. unfold gen_next at 1, delegate, client_generator.
  cbn [g_state in_state g_call g_self].
  destruct (next_second_cases
              (bound_method (method_of call) (endpoint_of c call))
              data (positional call) payload
              (w ++ [wire c (generator_route call).1 (generator_route call).2
                       (json_kw payload)]))
    as [e He|hm Hhm Ht|hm e Hhm Ht Hc|hm cu v s Hhm Ht Hc Hf|hm cu e s Hhm Ht Hc Hf].
  - eexists _, _, _. split; [done|]. split; [simpl; lia|]. intros _. right. by eexists.
  - eexists _, _, _. split; [done|]. split; [simpl; lia|]. intros _. by left.
  - eexists _, _, _. split; [done|]. split; [simpl; lia|]. intros _. right. by eexists.
  - pose proof (bound_method_state (method_of call) (endpoint_of c call)
                  (positional call) (<["start_cursor":=cu]> payload)
                  (w ++ [wire c (generator_route call).1 (generator_route call).2
                           (json_kw payload)])) as Hs.
    rewrite Hf in Hs. simpl in Hs. subst s.
    destruct fuel as [|fuel].
    + eexists _, _, _. split; [done|]. split; [simpl; lia|]. intros; lia.
    + eexists _, _, _. split; [done|]. split; [simpl; lia|]. intros _. by left.
  - pose proof (bound_method_state (method_of call) (endpoint_of c call)
                  (positional call) (<["start_cursor":=cu]> payload)
                  (w ++ [wire c (generator_route call).1 (generator_route call).2
                           (json_kw payload)])) as Hs.
    rewrite Hf in Hs. simpl in Hs. subst s.
    eexists _, _, _. split; [done|]. split; [simpl; lia|]. intros _. right. by eexists.
Qed.



(** ** The loop of the tests over a list operation *)





(** * The sequences of the list operations, against their contract *)

(** C4. The pull after the first sends no request, for every list
    operation, payload and server: what [paginate] calls there is the
    generator function of the list operation, and calling it runs no
    line of its body. On [Databases.query] against the server with two
    pages: the first pull sends the one request and yields the first
    page; the second pull yields a generator object and leaves the log
    as it was, so the request for cursor ["X"] is never sent during the
    loop. *)
Theorem second_element_sends_no_request :
  (∀ (c : client) (call : invocation) (payload : dict) (srv : server) (w : log),
     let pull1 := gen_next srv (client_generator c call payload) w in
     let pull2 := gen_next srv pull1.1.2 pull1.2 in
     pull2.2 = pull1.2)
  ∧ (let payload : dict := {[ "page_size" := JNum 1 ]} in
     let g := Databases.query (databases notion) "db" payload in
     let pull1 := gen_next two_pages g [] in
     let pull2 := gen_next two_pages pull1.1.2 pull1.2 in
     pull1.1.1 = Yield (VJson page1)
     ∧ pull1.2 = [wire notion "POST" "databases/db/query" (json_kw payload)]
     ∧ pull2.1.1
       = Yield (VGen (Databases.query (databases notion) "db"
                        (<["start_cursor" := JStr "X"]> payload)))
     ∧ pull2.2 = pull1.2
     ∧ cursor_of <$> state_after (collect (gen_next two_pages) 5 g []) = [None]).
Proof.
  split.
  - intros c call payload srv w pull1 pull2. subst pull2 pull1.
    rewrite client_generator_first_pull. cbn zeta.
    destruct (decode _) as [data|e]; [|done].
    unfold call_paginate. case_bool_decide; [done|].
    cbn [fst snd]. unfold gen_next, delegate, client_generator.
    cbn [g_state in_state g_call g_self].
    destruct (next_second_cases
                (bound_method (method_of call) (endpoint_of c call))
                data (positional call) payload
                (w ++ [wire c (generator_route call).1 (generator_route call).2
                         (json_kw payload)]))
      as [e He|hm Hhm Ht|hm e Hhm Ht Hc|hm cu v s Hhm Ht Hc Hf|hm cu e s Hhm Ht Hc Hf];
      try done.
    + pose proof (bound_method_state (method_of call) (endpoint_of c call)
                    (positional call) (<["start_cursor":=cu]> payload)
                    (w ++ [wire c (generator_route call).1 (generator_route call).2
                             (json_kw payload)])) as Hs.
      rewrite Hf in Hs. by simpl in Hs.
    + pose proof (bound_method_state (method_of call) (endpoint_of c call)
                    (positional call) (<["start_cursor":=cu]> payload)
                    (w ++ [wire c (generator_route call).1 (generator_route call).2
                             (json_kw payload)])) as Hs.
      rewrite Hf in Hs. by simpl in Hs.
  - intros payload g pull1 pull2. subst pull2 pull1 g payload.
    split; [by vm_compute|]. split; [by vm_compute|]. split; [by vm_compute|].
    split; by vm_compute.
Qed.

(** C7. What a list operation returns is not a sequence of pages.
    [Users.list] against the server with two pages: the loop sends one
    request and yields the first page and then a generator object, the
    call of [self.list] with the cursor, not the second page. And
    [Search.__call__] with a payload key named [data], on a server that
    answers with a page: the request is sent, and the first pull raises
    [TypeError] from the call of [paginate], so not even the first
    element is there. *)
Theorem list_operation_is_not_paginated :
  (let run := collect (gen_next two_pages) 5 (Users.list (users notion) ∅) [] in
   yielded run
   = [VJson page1;
      VGen (Users.list (users notion) (<["start_cursor" := JStr "X"]> ∅))]
   ∧ ended run = Exhausted
   ∧ state_after run = [wire notion "GET" "users" (json_kw ∅)])
  ∧ (let payload : dict := {[ "data" := JStr "x" ]} in
     let run := collect (gen_next two_pages) 5 (Search.__call__ (search notion) payload) [] in
     yielded run = []
     ∧ ended run = Raised (TypeError "paginate() got multiple values for argument")
     ∧ state_after run = [wire notion "POST" "search" (json_kw payload)]).
Proof.
  split.
  - intros run. subst run.
    split; [by vm_compute|]. split; by vm_compute.
  - intros payload run. subst run payload.
    split; [by vm_compute|]. split; by vm_compute.
Qed.
